(** * A two-persona console chatbot, written twice

    The repository holds two scripts for the same chatbot: one drives it with
    CrewAI's [Flow] decorators ([crewai_flow_chatbot_direct_call.py]), the
    other with a LangGraph [StateGraph] ([langgraph_chatbot.py]).  Each reads
    a line from the console, asks a hosted model to label it [emotional] or
    [logical], routes to one of two persona prompts, asks the model again for
    the reply and prints it.

    This development embeds both scripts and proves the properties the
    specification states about them.

    - Python values are an inductive type; a [dict] with string keys is a
      [gmap string value].
    - Strings are Rocq strings: sequences of characters with code points
      below 256.  [str.lower] and [str.strip] are Python's, restricted to
      that range.
    - Console and endpoint are an explicit world: the script of answers the
      endpoint will give, and the log of what the program printed, prompted
      and requested, in order.
    - Methods that mutate [self.state], print or raise live in a state and
      exception monad [M] over that world.
    - The two frameworks are taken as their decorators and edges describe
      them: a CrewAI flow runs its start method, hands the result to the
      router and runs the listener of the router's answer; a LangGraph graph
      runs classifier, router and the node the router names, merging each
      node's partial state into the keys the state declares, with [messages]
      merged by appending.
    - A LangGraph client makes message objects of the entries of a request
      before it sends anything, and refuses an entry whose content is not
      text.
    - The environment variable [MODEL] and the decoder behind [json.loads]
      are parameters; the decoder may raise any exception. *)

From stdpp Require Import base strings gmap list.
From Stdlib Require Import Ascii NArith ZArith Lia.

Set Warnings "-register-all".

(* ===================================================================== *)
(** * Python strings *)
(* ===================================================================== *)

(** Code point of a character. *)
Definition code (c : ascii) : N := N_of_ascii c.

(** [str.isspace] on one character: the characters Python's [strip] removes.
    Below 256 these are TAB..CR, FS..US, SPACE, NEL (0x85) and NBSP (0xA0). *)
Definition isspace (c : ascii) : bool :=
  let n := code c in
  ((9 <=? n) && (n <=? 13) || (28 <=? n) && (n <=? 32)
   || (n =? 133) || (n =? 160))%N.

(** [str.lower] on one character: A..Z and the Latin-1 capitals 0xC0..0xDE
    (0xD7, the multiplication sign, is not a letter) move up by 32. *)
Definition lower_char (c : ascii) : ascii :=
  let n := code c in
  if ((65 <=? n) && (n <=? 90)
      || (192 <=? n) && (n <=? 222) && negb (n =? 215))%N
  then ascii_of_N (n + 32) else c.

(** Apply a character function along a string. *)
Fixpoint smap (f : ascii -> ascii) (s : string) : string :=
  match s with
  | EmptyString => EmptyString
  | String c r => String (f c) (smap f r)
  end.

(** [s.lower()] *)
Definition lower (s : string) : string := smap lower_char s.

(** [s.lstrip()]: drop the leading whitespace. *)
Fixpoint lstrip (s : string) : string :=
  match s with
  | EmptyString => EmptyString
  | String c r => if isspace c then lstrip r else s
  end.

(** [s.rstrip()]: drop the trailing whitespace. *)
Fixpoint rstrip (s : string) : string :=
  match s with
  | EmptyString => EmptyString
  | String c r =>
      match rstrip r with
      | EmptyString => if isspace c then EmptyString else String c EmptyString
      | r' => String c r'
      end
  end.

(** [s.strip()]: both ends. *)
Definition strip (s : string) : string := rstrip (lstrip s).

(** [a == b] on strings. *)
Definition str_eq (a b : string) : bool := String.eqb a b.
Infix "==" := str_eq (at level 70, no associativity).

(** Truthiness of a string: only the empty string is false. *)
Definition truthy (s : string) : bool :=
  match s with EmptyString => false | String _ _ => true end.

(* ===================================================================== *)
(** * Python values, exceptions, effects *)
(* ===================================================================== *)

(** The objects an endpoint call or [json.loads] may hand back. *)
Inductive value : Type :=
  | VNone
  | VBool (b : bool)
  | VInt (z : Z)
  | VStr (s : string)
  | VList (l : list value)
  | VDict (d : gmap string value).

(** The exceptions the two scripts can meet. *)
Inductive exn : Type :=
  | JSONDecodeError
  | ValidationError
  | TypeError
  | IndexError
  | KeyError
  | EOFError
  | EndpointError
  | OutputParserException
  | ValueError
  | RecursionError.

Definition exn_eqb (a b : exn) : bool :=
  match a, b with
  | JSONDecodeError, JSONDecodeError
  | ValidationError, ValidationError
  | TypeError, TypeError
  | IndexError, IndexError
  | KeyError, KeyError
  | EOFError, EOFError
  | EndpointError, EndpointError
  | OutputParserException, OutputParserException
  | ValueError, ValueError
  | RecursionError, RecursionError => true
  | _, _ => false
  end.

(** A computation returns or raises. *)
Inductive outcome (A : Type) : Type :=
  | Ok (a : A)
  | Raise (e : exn).
Arguments Ok {A} a.
Arguments Raise {A} e.

(** State and exception monad over a world [W].  What was done to the world
    before an exception stays done, as in Python. *)
Definition M (W A : Type) : Type := W -> outcome A * W.

Definition ret {W A} (a : A) : M W A := fun w => (Ok a, w).

Definition raise {W A} (e : exn) : M W A := fun w => (Raise e, w).

Definition bind {W A B} (m : M W A) (k : A -> M W B) : M W B :=
  fun w =>
    match m w with
    | (Ok a, w') => k a w'
    | (Raise e, w') => (Raise e, w')
    end.

(** [try: body  except (e1, e2, ...): handler] *)
Definition try_except {W A} (body : M W A) (caught : list exn)
    (handler : M W A) : M W A :=
  fun w =>
    match body w with
    | (Ok a, w') => (Ok a, w')
    | (Raise e, w') =>
        if existsb (exn_eqb e) caught then handler w' else (Raise e, w')
    end.

(** Lift a value that was computed without touching the world. *)
Definition lift {W A} (o : outcome A) : M W A := fun w => (o, w).

Notation "'let*' x := m 'in' k" := (bind m (fun x => k))
  (at level 10, x name, m at level 100, k at level 200, only parsing).
Notation "m >> k" := (bind m (fun _ => k))
  (at level 90, right associativity, only parsing).

(** What the program does to the outside, in order. *)
Inductive event (client msg : Type) : Type :=
  | Prompt (text : string)
  | Print (text : string)
  | Call (llm : client) (messages : list msg).
Arguments Prompt {client msg} text.
Arguments Print {client msg} text.
Arguments Call {client msg} llm messages.

Definition is_call {client msg} (e : event client msg) : bool :=
  match e with Call _ _ => true | _ => false end.

(* ===================================================================== *)
(** * The label schema, shared by both scripts *)
(* ===================================================================== *)

(** [class MessageClassifier(BaseModel)]: one field,
    [message_type: Literal["emotional", "logical"]]. *)
Record MessageClassifier : Type := { mc_message_type : string }.

Definition in_literal (s : string) : bool :=
  (s == "emotional") || (s == "logical").

(** Pydantic validation of the keyword arguments: the field is required and
    must be one of the two strings; other keys are ignored. *)
Definition validate (data : gmap string value) : outcome MessageClassifier :=
  match data !! "message_type" with
  | Some (VStr s) =>
      if in_literal s then Ok {| mc_message_type := s |}
      else Raise ValidationError
  | _ => Raise ValidationError
  end.

(** The constructor called on unpacked [data]: unpacking anything but a
    mapping is a [TypeError]. *)
Definition MessageClassifier_init (data : value) : outcome MessageClassifier :=
  match data with
  | VDict d => validate d
  | _ => Raise TypeError
  end.

(* ===================================================================== *)
(** * crewai_flow_chatbot_direct_call.py *)
(* ===================================================================== *)

Module CrewAI.

(** The class a client is asked to answer in ([response_format=]). *)
Inductive model_class : Type := MessageClassifierClass.

(** Keyword arguments of CrewAI's [LLM(...)]; an argument that is not given
    is [None]. *)
Record LLM : Type := {
  model : option string;
  temperature : option Z;
  max_tokens : option Z;
  response_format : option model_class
}.

(** One role-tagged message, [{"role": ..., "content": ...}]. *)
Record message : Type := { role : string; content : string }.

(** [class MessageState(BaseModel)] *)
Record MessageState : Type := {
  user_message : string;
  message_type : string;
  response : string;
  conversation_history : list message
}.

(** The field defaults of [MessageState]. *)
Definition MessageState_default : MessageState :=
  {| user_message := ""; message_type := ""; response := "";
     conversation_history := [] |}.

(** The flow object's state, what the endpoint will answer to the classifier
    client and to the responder client (an entry may be a failure of the
    call; past the end of a script every call fails), and the log. *)
Record world : Type := {
  state : MessageState;
  classifier_feed : list (outcome value);
  responder_feed : list (outcome string);
  log : list (event LLM message)
}.

Definition get_state : M world MessageState := fun w => (Ok (state w), w).

Definition put_state (s : MessageState) : M world unit :=
  fun w => (Ok tt, {| state := s; classifier_feed := classifier_feed w;
                      responder_feed := responder_feed w; log := log w |}).

(** [self.state.user_message = v] *)
Definition set_user_message (v : string) : M world unit :=
  let* s := get_state in
  put_state {| user_message := v; message_type := message_type s;
               response := response s;
               conversation_history := conversation_history s |}.

(** [self.state.message_type = v] *)
Definition set_message_type (v : string) : M world unit :=
  let* s := get_state in
  put_state {| user_message := user_message s; message_type := v;
               response := response s;
               conversation_history := conversation_history s |}.

(** [self.state.response = v] *)
Definition set_response (v : string) : M world unit :=
  let* s := get_state in
  put_state {| user_message := user_message s;
               message_type := message_type s; response := v;
               conversation_history := conversation_history s |}.

(** [self.state.conversation_history.extend(more)] *)
Definition extend_history (more : list message) : M world unit :=
  let* s := get_state in
  put_state {| user_message := user_message s;
               message_type := message_type s; response := response s;
               conversation_history := conversation_history s ++ more |}.

(** Append one event to the log. *)
Definition emit (e : event LLM message) : M world unit :=
  fun w => (Ok tt, {| state := state w; classifier_feed := classifier_feed w;
                      responder_feed := responder_feed w;
                      log := log w ++ [e] |}).

(** [print(text)] *)
Definition print (text : string) : M world unit := emit (Print text).

(** [llm.call(messages)] on a client with a [response_format]: the request
    goes out, the next scripted answer comes back. *)
Definition call_structured (llm : LLM) (messages : list message)
    : M world value :=
  emit (Call llm messages) >>
  fun w =>
    match classifier_feed w with
    | [] => (Raise EndpointError, w)
    | a :: rest =>
        (a, {| state := state w; classifier_feed := rest;
               responder_feed := responder_feed w; log := log w |})
    end.

(** [llm.call(messages)] on a plain client: the reply is text. *)
Definition call_text (llm : LLM) (messages : list message) : M world string :=
  emit (Call llm messages) >>
  fun w =>
    match responder_feed w with
    | [] => (Raise EndpointError, w)
    | a :: rest =>
        (a, {| state := state w; classifier_feed := classifier_feed w;
               responder_feed := rest; log := log w |})
    end.

(** [isinstance(v, dict)] *)
Definition isinstance_dict (v : value) : bool :=
  match v with VDict _ => true | _ => false end.

Definition classifier_prompt : string :=
  "Classify the user message as either:
                - 'emotional': if it asks for emotional support, therapy, deals with feelings, or personal problems
                - 'logical': if it asks for facts, information, logical analysis, or practical solutions
                ".

Definition therapist_prompt : string :=
  "You are a compassionate therapist. Focus on the emotional aspects of the user's message.
                Show empathy, validate their feelings, and help them process their emotions.
                Ask thoughtful questions to help them explore their feelings more deeply.
                Avoid giving logical solutions unless explicitly asked.".

Definition logical_prompt : string :=
  "You are a purely logical assistant. Focus only on facts and information.
                Provide clear, concise answers based on logic and evidence.
                Do not address emotions or provide emotional support.
                Be direct and straightforward in your responses.".

(** The prompt of [input(...)] in the loop. *)
Definition input_prompt : string :=
  "Type your message here or type exit to quit: ".

(** [@router(classify_message) def route_message(self, message_type)]: the
    body reads nothing but its argument. *)
Definition route_message (message_type : string) : string :=
  if message_type == "exit" then "exit"
  else if message_type == "emotional" then "therapist"
  else "logical".

(** The test of the loop: [user_input.lower().strip() == "exit"]. *)
Definition is_exit (user_input : string) : bool :=
  strip (lower user_input) == "exit".

(** A decoder that keeps to the documented contract of [json.loads]: for
    each text, the value it denotes or [JSONDecodeError]. *)
Definition documented (decode : string -> option value)
    : string -> outcome value :=
  fun s =>
    match decode s with
    | Some d => Ok d
    | None => Raise JSONDecodeError
    end.

Section Script.

(** [os.environ.get("MODEL")]: [None] when the variable is not set. *)
Variable GEMINI_MODEL : option string.

(** The decoder behind [json.loads]: on a text it returns the value the text
    denotes or raises.  Text that is not JSON raises [JSONDecodeError]; the
    interpreter's limits raise other exceptions, [ValueError] for an integer
    with more digits than it converts and [RecursionError] for nesting that
    is too deep. *)
Variable json_decode : string -> outcome value.

(** [json.loads(v)]: only text is decoded. *)
Definition json_loads (v : value) : outcome value :=
  match v with
  | VStr s => json_decode s
  | _ => Raise TypeError
  end.

(** The module-level client of the two responders. *)
Definition gemini_llm : LLM :=
  {| model := GEMINI_MODEL; temperature := Some 0%Z;
     max_tokens := Some 4096%Z; response_format := None |}.

(** The client [classify_message] builds on each call. *)
Definition classifier_llm : LLM :=
  {| model := GEMINI_MODEL; temperature := None; max_tokens := None;
     response_format := Some MessageClassifierClass |}.

(** [@start() def classify_message(self)] *)
Definition classify_message : M world string :=
  let* s := get_state in
  if negb (truthy (user_message s)) then ret "exit"
  else
    let* result := call_structured classifier_llm
                [ {| role := "system"; content := classifier_prompt |};
                  {| role := "user"; content := user_message s |} ] in
    try_except
      (let* data := lift (if isinstance_dict result then Ok result
                     else json_loads result) in
       let* parsed := lift (MessageClassifier_init data) in
       set_message_type (mc_message_type parsed))
      [JSONDecodeError; ValidationError; TypeError]
      (set_message_type "logical") >>
    let* s' := get_state in
    ret (message_type s').

(** [@listen("therapist") def therapist_response(self)] *)
Definition therapist_response : M world string :=
  let* s := get_state in
  let messages :=
    [ {| role := "system"; content := therapist_prompt |} ]
      ++ conversation_history s
      ++ [ {| role := "user"; content := user_message s |} ] in
  let* reply := call_text gemini_llm messages in
  let* s1 := get_state in
  extend_history [ {| role := "user"; content := user_message s1 |};
                   {| role := "assistant"; content := reply |} ] >>
  set_response reply >>
  print ("Assistant: " +:+ reply) >>
  ret reply.

(** [@listen("logical") def logical_response(self)] *)
Definition logical_response : M world string :=
  let* s := get_state in
  let messages :=
    [ {| role := "system"; content := logical_prompt |} ]
      ++ conversation_history s
      ++ [ {| role := "user"; content := user_message s |} ] in
  let* reply := call_text gemini_llm messages in
  let* s1 := get_state in
  extend_history [ {| role := "user"; content := user_message s1 |};
                   {| role := "assistant"; content := reply |} ] >>
  set_response reply >>
  print ("Assistant: " +:+ reply) >>
  ret reply.

(** [@listen("exit") def handle_exit(self)] *)
Definition handle_exit : M world string :=
  print "Bye" >> ret "goodbye".

(** [flow.kickoff()]: the start method runs, the router is given what it
    returned, the method listening to the router's answer runs, and what the
    last method returned is the result. *)
Definition kickoff : M world string :=
  let* label := classify_message in
  let branch := route_message label in
  if branch == "therapist" then therapist_response
  else if branch == "logical" then logical_response
  else if branch == "exit" then handle_exit
  else ret branch.

(** One pass through the body of [while True]; [true] means [break]. *)
Definition loop_body (user_input : string) : M world bool :=
  if is_exit user_input then ret true
  else
    set_user_message user_input >>
    let* result := kickoff in
    let* s := get_state in
    ret ((message_type s == "exit") || (result == "goodbye")).

(** The loop of [run_chatbot] over the lines the console will supply;
    [input] at the end of the console raises [EOFError]. *)
Fixpoint loop (console : list string) : M world unit :=
  emit (Prompt input_prompt) >>
  match console with
  | [] => raise EOFError
  | user_input :: rest =>
      let* stop := loop_body user_input in
      if stop then ret tt else loop rest
  end.

(** A fresh [ChatbotFlow()] facing an endpoint that will give the scripted
    answers. *)
Definition fresh (cs : list (outcome value)) (rs : list (outcome string))
    : world :=
  {| state := MessageState_default; classifier_feed := cs;
     responder_feed := rs; log := [] |}.

(** [run_chatbot()] *)
Definition run_chatbot (console : list string) (cs : list (outcome value))
    (rs : list (outcome string)) : outcome unit * world :=
  loop console (fresh cs rs).

End Script.

End CrewAI.

(* ===================================================================== *)
(** * langgraph_chatbot.py *)
(* ===================================================================== *)

Module LangGraph.

(** The schema a client is wrapped with by [with_structured_output]. *)
Inductive model_class : Type := MessageClassifierClass.

(** Keyword arguments of [ChatGoogleGenerativeAI(...)], and the schema the
    client was wrapped with, if any. *)
Record ChatGoogleGenerativeAI : Type := {
  model : string;
  temperature : option Z;
  max_tokens : option Z;
  timeout : option Z;
  max_retries : Z;
  structured_output : option model_class
}.

(** The module-level client. *)
Definition llm : ChatGoogleGenerativeAI :=
  {| model := "gemini-2.5-flash"; temperature := Some 0%Z;
     max_tokens := None; timeout := None; max_retries := 2%Z;
     structured_output := None |}.

(** [client.with_structured_output(cls)] *)
Definition with_structured_output (client : ChatGoogleGenerativeAI)
    (cls : model_class) : ChatGoogleGenerativeAI :=
  {| model := model client; temperature := temperature client;
     max_tokens := max_tokens client; timeout := timeout client;
     max_retries := max_retries client; structured_output := Some cls |}.

(** A message of the conversation as the graph holds it: the reducer turns
    each [{"role": ..., "content": ...}] into a message object with that
    role and that [.content]. *)
Record message : Type := { role : string; content : string }.

(** What a request carries as ["content"]: text, or a whole message object. *)
Inductive payload : Type :=
  | Text (s : string)
  | Object (m : message).

(** One entry of a request to the endpoint. *)
Record request_message : Type := { req_role : string; req_content : payload }.

(** [class State(TypedDict)]: the two keys it declares.  For
    [message_type], which the code reads with [.get], the outer [None] is a
    missing key and the inner [None] is Python's [None]. *)
Record State : Type := {
  messages : list message;
  message_type : option (option string)
}.

(** The partial state a node returns. *)
Inductive update : Type :=
  | MessageTypeUpdate (v : string)
  | NextUpdate (v : string)
  | MessagesUpdate (ms : list message).

(** How the graph folds a node's update into the state: [messages] goes
    through the appending reducer, [message_type] is overwritten, and a key
    the state does not declare, the router's [next], is not stored. *)
Definition merge (state : State) (u : update) : State :=
  match u with
  | MessageTypeUpdate v =>
      {| messages := messages state; message_type := Some (Some v) |}
  | NextUpdate _ => state
  | MessagesUpdate ms =>
      {| messages := messages state ++ ms;
         message_type := message_type state |}
  end.

(** What the endpoint will answer to the structured client (the raw payload,
    before it is parsed) and to the plain client, and the log. *)
Record world : Type := {
  classifier_feed : list (outcome value);
  responder_feed : list (outcome string);
  log : list (event ChatGoogleGenerativeAI request_message)
}.

Definition emit (e : event ChatGoogleGenerativeAI request_message)
    : M world unit :=
  fun w => (Ok tt, {| classifier_feed := classifier_feed w;
                      responder_feed := responder_feed w;
                      log := log w ++ [e] |}).

(** [print(text)] *)
Definition print (text : string) : M world unit := emit (Print text).

(** What [invoke] does with its argument before anything is sent: every
    entry is made into a message object, whose content has to be text.  An
    entry whose content is itself a message object is refused with
    [ValidationError]. *)
Fixpoint convert_to_messages (msgs : list request_message) : outcome unit :=
  match msgs with
  | [] => Ok tt
  | m :: rest =>
      match req_content m with
      | Text _ => convert_to_messages rest
      | Object _ => Raise ValidationError
      end
  end.

(** [client.invoke(messages)] on a client wrapped with the schema: the
    entries are converted, the request goes out, and the wrapper parses the
    answer into a [MessageClassifier]; an answer that does not parse
    raises. *)
Definition invoke_structured (client : ChatGoogleGenerativeAI)
    (msgs : list request_message) : M world MessageClassifier :=
  lift (convert_to_messages msgs) >>
  emit (Call client msgs) >>
  let* raw :=
    (fun w =>
       match classifier_feed w with
       | [] => (Raise EndpointError, w)
       | a :: rest =>
           (a, {| classifier_feed := rest;
                  responder_feed := responder_feed w; log := log w |})
       end) in
  match MessageClassifier_init raw with
  | Ok parsed => ret parsed
  | Raise _ => raise OutputParserException
  end.

(** [client.invoke(messages)] on the plain client; the result is the
    [.content] of the reply. *)
Definition invoke (client : ChatGoogleGenerativeAI)
    (msgs : list request_message) : M world string :=
  lift (convert_to_messages msgs) >>
  emit (Call client msgs) >>
  fun w =>
    match responder_feed w with
    | [] => (Raise EndpointError, w)
    | a :: rest =>
        (a, {| classifier_feed := classifier_feed w;
               responder_feed := rest; log := log w |})
    end.

(** [l[-1]] *)
Definition last_item {A} (l : list A) : outcome A :=
  match last l with
  | Some x => Ok x
  | None => Raise IndexError
  end.

Definition classifier_prompt : string :=
  "Classify the user message as either:
            - 'emotional': if it asks for emotional support, therapy, deals with feelings, or personal problems
            - 'logical': if it asks for facts, information, logical analysis, or practical solutions
            ".

Definition therapist_prompt : string :=
  "You are a compassionate therapist. Focus on the emotional aspects of the user's message.
                        Show empathy, validate their feelings, and help them process their emotions.
                        Ask thoughtful questions to help them explore their feelings more deeply.
                        Avoid giving logical solutions unless explicitly asked.".

Definition logical_prompt : string :=
  "You are a purely logical assistant. Focus only on facts and information.
            Provide clear, concise answers based on logic and evidence.
            Do not address emotions or provide emotional support.
            Be direct and straightforward in your responses.".

(** The prompt of [input(...)] in the loop. *)
Definition input_prompt : string := "Enter your message: ".

(** [def classify_message(state)]: the user entry of the request is given
    [last_message] itself as its content, where the two agents give
    [last_message.content]. *)
Definition classify_message (state : State) : M world update :=
  let* last_message := lift (last_item (messages state)) in
  let classifier_llm := with_structured_output llm MessageClassifierClass in
  let* result := invoke_structured classifier_llm
                   [ {| req_role := "system";
                        req_content := Text classifier_prompt |};
                     {| req_role := "user";
                        req_content := Object last_message |} ] in
  ret (MessageTypeUpdate (mc_message_type result)).

(** [def router(state)] *)
Definition router (state : State) : update :=
  let message_type :=
    match message_type state with
    | Some v => v
    | None => Some "logical"
    end in
  if match message_type with
     | Some s => s == "emotional"
     | None => false
     end
  then NextUpdate "therapist"
  else NextUpdate "logical".

(** [def therapist_agent(state)] *)
Definition therapist_agent (state : State) : M world update :=
  let* last_message := lift (last_item (messages state)) in
  let messages :=
    [ {| req_role := "system"; req_content := Text therapist_prompt |};
      {| req_role := "user"; req_content := Text (content last_message) |} ] in
  let* reply := invoke llm messages in
  ret (MessagesUpdate [ {| role := "assistant"; content := reply |} ]).

(** [def logical_agent(state)] *)
Definition logical_agent (state : State) : M world update :=
  let* last_message := lift (last_item (messages state)) in
  let messages :=
    [ {| req_role := "system"; req_content := Text logical_prompt |};
      {| req_role := "user"; req_content := Text (content last_message) |} ] in
  let* reply := invoke llm messages in
  ret (MessagesUpdate [ {| role := "assistant"; content := reply |} ]).

(** The conditional edge after the router, [lambda state: state.get("next")]:
    the graph hands it the state together with the keys the router has just
    returned, so [next] is read from the router's own update. *)
Definition conditional_edge (routed : update) : option string :=
  match routed with
  | NextUpdate v => Some v
  | _ => None
  end.

(** [graph.invoke(state)]: START, classifier, router, then the node the
    conditional edge names, then END. *)
Definition graph_invoke (state : State) : M world State :=
  let* u := classify_message state in
  let state := merge state u in
  let routed := router state in
  let state := merge state routed in
  match conditional_edge routed with
  | Some n =>
      if n == "therapist" then
        let* u := therapist_agent state in ret (merge state u)
      else if n == "logical" then
        let* u := logical_agent state in ret (merge state u)
      else raise KeyError
  | None => raise KeyError
  end.

(** The test of the loop: [user_input.strip().lower() == "exit"]. *)
Definition is_exit (user_input : string) : bool :=
  lower (strip user_input) == "exit".

(** The state [run_chatbot] starts from. *)
Definition initial_state : State :=
  {| messages := []; message_type := Some None |}.

(** The loop of [run_chatbot] over the lines the console will supply, from
    the value of its local [state]; the result is that local at [break]. *)
Fixpoint loop (console : list string) (state : State) : M world State :=
  emit (Prompt input_prompt) >>
  match console with
  | [] => raise EOFError
  | user_input :: rest =>
      if is_exit user_input then print "Bye" >> ret state
      else
        let state :=
          {| messages := messages state
                           ++ [ {| role := "user"; content := user_input |} ];
             message_type := message_type state |} in
        let* state := graph_invoke state in
        (match last (messages state) with
         | Some last_message => print ("Assistant: " +:+ content last_message)
         | None => ret tt
         end) >>
        loop rest state
  end.

(** An endpoint that will give the scripted answers, nothing logged yet. *)
Definition fresh (cs : list (outcome value)) (rs : list (outcome string))
    : world :=
  {| classifier_feed := cs; responder_feed := rs; log := [] |}.

(** [run_chatbot()] *)
Definition run_chatbot (console : list string) (cs : list (outcome value))
    (rs : list (outcome string)) : outcome State * world :=
  loop console initial_state (fresh cs rs).

End LangGraph.

(* ===================================================================== *)
(** * Definitions used to state the properties *)
(* ===================================================================== *)

(** The specification's exit sentinel: the input, once its surrounding
    whitespace is trimmed and letter case is ignored, is the word exit. *)
Definition exit_sentinel (s : string) : Prop :=
  lower (strip s) = lower "exit".

(** A double quote, to write JSON text. *)
Definition dquote : string := String "034"%char "".

(** The JSON text of an object with the single field [message_type]. *)
Definition label_json (label : string) : string :=
  "{" +:+ dquote +:+ "message_type" +:+ dquote +:+ ": "
      +:+ dquote +:+ label +:+ dquote +:+ "}".

(** The dictionary that text denotes. *)
Definition label_dict (label : string) : gmap string value :=
  {[ "message_type" := VStr label ]}.

(** A decoder for the examples: it knows the one-field objects for three
    labels and a few atoms; any other text is not JSON to it. *)
Definition sample_json_decode (s : string) : option value :=
  if s == label_json "emotional" then Some (VDict (label_dict "emotional"))
  else if s == label_json "logical" then Some (VDict (label_dict "logical"))
  else if s == label_json "angry" then Some (VDict (label_dict "angry"))
  else if s == "null" then Some VNone
  else if s == "true" then Some (VBool true)
  else if s == "[]" then Some (VList [])
  else if s == "{}" then Some (VDict ∅)
  else None.

(** A client configured the way the specification says every client is: the
    model named by the environment, temperature 0, some bound on the output
    tokens. *)
Definition as_specified (env_model model : option string)
    (temperature max_tokens : option Z) : Prop :=
  model = env_model /\ temperature = Some 0%Z
  /\ exists bound, max_tokens = Some bound.

(** A dictionary passes the label schema with [label]: it has the field, the
    field is text, and the text is one of the two labels. *)
Definition dict_valid (d : gmap string value) (label : string) : Prop :=
  d !! "message_type" = Some (VStr label)
  /\ (label = "emotional" \/ label = "logical").

(** An answer of the classifier client of the CrewAI flow validates with
    [label]: it is such a dictionary, or text that decodes to one. *)
Definition schema_valid (json_decode : string -> option value)
    (result : value) (label : string) : Prop :=
  exists d,
    (result = VDict d
     \/ exists text, result = VStr text /\ json_decode text = Some (VDict d))
    /\ dict_valid d label.

(** The label the CrewAI classifier step settles on for an answer. *)
Definition parsed_label (json_decode : string -> option value)
    (result : value) : string :=
  match (if CrewAI.isinstance_dict result then Ok result
         else CrewAI.json_loads (CrewAI.documented json_decode) result) with
  | Ok data =>
      match MessageClassifier_init data with
      | Ok parsed => mc_message_type parsed
      | Raise _ => "logical"
      end
  | Raise _ => "logical"
  end.

(** The exceptions the [except] clause of the CrewAI classifier step
    names. *)
Definition caught : list exn := [JSONDecodeError; ValidationError; TypeError].

(** What the [try] statement of the CrewAI classifier step makes of an
    answer, under any decoder: the label it stores, or the exception that
    leaves the step. *)
Definition classified (json_decode : string -> outcome value)
    (result : value) : outcome string :=
  match (if CrewAI.isinstance_dict result then Ok result
         else CrewAI.json_loads json_decode result) with
  | Ok data =>
      match MessageClassifier_init data with
      | Ok parsed => Ok (mc_message_type parsed)
      | Raise e =>
          if existsb (exn_eqb e) caught then Ok "logical" else Raise e
      end
  | Raise e => if existsb (exn_eqb e) caught then Ok "logical" else Raise e
  end.

(** An exception the decoder raises on a text of the classifier's script
    and the [except] clause does not name. *)
Definition escapes (json_decode : string -> outcome value)
    (feed : list (outcome value)) (e : exn) : Prop :=
  exists text,
    In (Ok (VStr text)) feed
    /\ json_decode text = Raise e
    /\ existsb (exn_eqb e) caught = false.

(** The text of an integer of [n] digits. *)
Fixpoint digits (n : nat) : string :=
  match n with
  | 0 => ""
  | S k => String "1"%char (digits k)
  end.

(** The text is the digit 1 repeated. *)
Fixpoint all_ones (s : string) : bool :=
  match s with
  | EmptyString => true
  | String c rest => Ascii.eqb c "1"%char && all_ones rest
  end.

(** A decoder for the examples that has the interpreter's limit on the
    digits of an integer: the text of an integer with more than 4300 digits
    raises [ValueError]; every other text is read as [sample_json_decode]
    reads it. *)
Definition sample_json_loads (s : string) : outcome value :=
  if all_ones s && (4300 <? String.length s) then Raise ValueError
  else CrewAI.documented sample_json_decode s.

(** The persona text the CrewAI flow answers a label with. *)
Definition persona_of (label : string) : string :=
  if label == "emotional" then CrewAI.therapist_prompt
  else CrewAI.logical_prompt.

(** One turn as the outside sees it: what the user typed, what the endpoint
    answered the classifier, what it answered the responder. *)
Record turn : Type := { said : string; verdict : value; reply : string }.

(** The user entry and the assistant entry of a turn, for either script's
    message type. *)
Definition exchange_with {A} (mk : string -> string -> A) (t : turn) : list A :=
  [ mk "user" (said t); mk "assistant" (reply t) ].

(** The history a list of turns should leave, oldest first. *)
Definition transcript_with {A} (mk : string -> string -> A) (ts : list turn)
    : list A :=
  concat (map (exchange_with mk) ts).

(** The scripts of answers the endpoint gives over a list of turns. *)
Definition verdicts (ts : list turn) : list (outcome value) :=
  map (fun t => Ok (verdict t)) ts.

Definition replies (ts : list turn) : list (outcome string) :=
  map (fun t => Ok (reply t)) ts.

(** Two turns for the examples: the two scenarios of the specification. *)
Definition sample_turns : list turn :=
  [ {| said := "I feel anxious about my exam";
       verdict := VDict (label_dict "emotional");
       reply := "That sounds stressful. What worries you most?" |};
    {| said := "What is the boiling point of water at sea level?";
       verdict := VDict (label_dict "logical");
       reply := "100 degrees Celsius." |} ].

(** The session goes on after a turn of the CrewAI loop unless the reply is
    the very word the loop takes for the exit listener's result. *)
Definition goes_on (t : turn) : Prop := reply t <> "goodbye".


Module CrewAIRun.

(** The history the turns should leave, oldest first. *)
Definition transcript (ts : list turn) : list CrewAI.message :=
  transcript_with CrewAI.Build_message ts.

(** A turn the flow answers: the input is neither the sentinel nor empty. *)
Definition completes (t : turn) : Prop :=
  CrewAI.is_exit (said t) = false /\ said t <> "".

(** The state after a responder has answered. *)
Definition answered (s : CrewAI.MessageState) (label r : string)
    : CrewAI.MessageState :=
  {| CrewAI.user_message := CrewAI.user_message s;
     CrewAI.message_type := label;
     CrewAI.response := r;
     CrewAI.conversation_history :=
       CrewAI.conversation_history s
         ++ [ {| CrewAI.role := "user";
                 CrewAI.content := CrewAI.user_message s |};
              {| CrewAI.role := "assistant"; CrewAI.content := r |} ] |}.

(** The state with another [user_message] or another [message_type]. *)
Definition with_user_message (s : CrewAI.MessageState) (v : string)
    : CrewAI.MessageState :=
  {| CrewAI.user_message := v;
     CrewAI.message_type := CrewAI.message_type s;
     CrewAI.response := CrewAI.response s;
     CrewAI.conversation_history := CrewAI.conversation_history s |}.

Definition with_message_type (s : CrewAI.MessageState) (v : string)
    : CrewAI.MessageState :=
  {| CrewAI.user_message := CrewAI.user_message s;
     CrewAI.message_type := v;
     CrewAI.response := CrewAI.response s;
     CrewAI.conversation_history := CrewAI.conversation_history s |}.

(** The request the classifier step sends for a message. *)
Definition classifier_request (u : string) : list CrewAI.message :=
  [ {| CrewAI.role := "system"; CrewAI.content := CrewAI.classifier_prompt |};
    {| CrewAI.role := "user"; CrewAI.content := u |} ].

(** The message list the specification asks of a responder: the persona
    instruction, the prior history, the new user turn. *)
Definition responder_request (persona : string)
    (history : list CrewAI.message) (u : string) : list CrewAI.message :=
  {| CrewAI.role := "system"; CrewAI.content := persona |}
    :: history ++ [ {| CrewAI.role := "user"; CrewAI.content := u |} ].

(** What either responder does, with the persona left open. *)
Definition respond_result (G : option string) (persona : string)
    (w : CrewAI.world)
    : outcome string * CrewAI.world :=
  let s := CrewAI.state w in
  let sent :=
    CrewAI.log w
      ++ [Call (CrewAI.gemini_llm G)
            (responder_request persona
               (CrewAI.conversation_history s) (CrewAI.user_message s))] in
  match CrewAI.responder_feed w with
  | Ok r :: rf =>
      (Ok r,
       {| CrewAI.state := answered s (CrewAI.message_type s) r;
          CrewAI.classifier_feed := CrewAI.classifier_feed w;
          CrewAI.responder_feed := rf;
          CrewAI.log := sent ++ [Print ("Assistant: " +:+ r)] |})
  | Raise e :: rf =>
      (Raise e,
       {| CrewAI.state := s;
          CrewAI.classifier_feed := CrewAI.classifier_feed w;
          CrewAI.responder_feed := rf; CrewAI.log := sent |})
  | [] =>
      (Raise EndpointError,
       {| CrewAI.state := s;
          CrewAI.classifier_feed := CrewAI.classifier_feed w;
          CrewAI.responder_feed := []; CrewAI.log := sent |})
  end.

(** The world once the loop has written its prompt. *)
Definition prompted (w : CrewAI.world) : CrewAI.world :=
  {| CrewAI.state := CrewAI.state w;
     CrewAI.classifier_feed := CrewAI.classifier_feed w;
     CrewAI.responder_feed := CrewAI.responder_feed w;
     CrewAI.log := CrewAI.log w ++ [Prompt CrewAI.input_prompt] |}.

(** The world whose endpoint first gives the answers of these turns. *)
Definition fed (ts : list turn) (w : CrewAI.world) : CrewAI.world :=
  {| CrewAI.state := CrewAI.state w;
     CrewAI.classifier_feed := verdicts ts ++ CrewAI.classifier_feed w;
     CrewAI.responder_feed := replies ts ++ CrewAI.responder_feed w;
     CrewAI.log := CrewAI.log w |}.

End CrewAIRun.

Module LangGraphRun.

(** The history the turns should leave, oldest first. *)
Definition transcript (ts : list turn) : list LangGraph.message :=
  transcript_with LangGraph.Build_message ts.

(** A history entry as a request would carry it. *)
Definition as_request (m : LangGraph.message) : LangGraph.request_message :=
  {| LangGraph.req_role := LangGraph.role m;
     LangGraph.req_content := LangGraph.Text (LangGraph.content m) |}.

(** The message list the specification asks of a responder: the persona
    instruction, the prior history, the new user turn. *)
Definition responder_request (persona : string)
    (history : list LangGraph.message) (u : string)
    : list LangGraph.request_message :=
  {| LangGraph.req_role := "system";
     LangGraph.req_content := LangGraph.Text persona |}
    :: map as_request history
       ++ [ {| LangGraph.req_role := "user";
               LangGraph.req_content := LangGraph.Text u |} ].

(** The message list the two agents do send. *)
Definition agent_request (persona : string) (u : string)
    : list LangGraph.request_message :=
  [ {| LangGraph.req_role := "system";
       LangGraph.req_content := LangGraph.Text persona |};
    {| LangGraph.req_role := "user";
       LangGraph.req_content := LangGraph.Text u |} ].

(** The request the classifier node builds for the last message. *)
Definition classifier_request (m : LangGraph.message)
    : list LangGraph.request_message :=
  [ {| LangGraph.req_role := "system";
       LangGraph.req_content := LangGraph.Text LangGraph.classifier_prompt |};
    {| LangGraph.req_role := "user";
       LangGraph.req_content := LangGraph.Object m |} ].

(** The client of the classifier node. *)
Definition classifier_llm : LangGraph.ChatGoogleGenerativeAI :=
  LangGraph.with_structured_output LangGraph.llm
    LangGraph.MessageClassifierClass.

(** The world once the loop has written its prompt. *)
Definition prompted (w : LangGraph.world) : LangGraph.world :=
  {| LangGraph.classifier_feed := LangGraph.classifier_feed w;
     LangGraph.responder_feed := LangGraph.responder_feed w;
     LangGraph.log := LangGraph.log w ++ [Prompt LangGraph.input_prompt] |}.

(** The world once the loop has written its prompt and its farewell. *)
Definition farewell (w : LangGraph.world) : LangGraph.world :=
  {| LangGraph.classifier_feed := LangGraph.classifier_feed w;
     LangGraph.responder_feed := LangGraph.responder_feed w;
     LangGraph.log :=
       (LangGraph.log w ++ [Prompt LangGraph.input_prompt])
         ++ [Print "Bye"] |}.

(** A state in the middle of a second turn: one pair of history, then the
    new user message. *)
Definition sample_state : LangGraph.State :=
  {| LangGraph.messages :=
       [ {| LangGraph.role := "user";
            LangGraph.content := "I failed my exam" |};
         {| LangGraph.role := "assistant";
            LangGraph.content := "That sounds hard." |};
         {| LangGraph.role := "user"; LangGraph.content := "What now?" |} ];
     LangGraph.message_type := Some (Some "emotional") |}.

End LangGraphRun.

(** Every character of the string is whitespace. *)
Fixpoint all_space (s : string) : bool :=
  match s with
  | EmptyString => true
  | String c r => isspace c && all_space r
  end.

(** The events of a log that are requests to the endpoint. *)
Definition requests {client msg} (l : list (event client msg))
    : list (event client msg) :=
  List.filter is_call l.


(** The endpoint script holds a failure with this exception. *)
Definition raised_by {A} (feed : list (outcome A)) (e : exn) : Prop :=
  In (Raise e) feed.

Module CrewAISession.

(** The state of the flow after one answered turn. *)
Definition state_after_turn (jd : string -> option value)
    (s : CrewAI.MessageState) (t : turn) : CrewAI.MessageState :=
  CrewAIRun.answered (CrewAIRun.with_user_message s (said t))
    (parsed_label jd (verdict t)) (reply t).

(** The state of the flow after a list of answered turns. *)
Definition state_after (jd : string -> option value)
    (s : CrewAI.MessageState) (ts : list turn) : CrewAI.MessageState :=
  fold_left (state_after_turn jd) ts s.

(** What one answered turn writes to the log, given the history before it:
    the prompt, the classifier's request, the request of the responder the
    label selects, and the printed reply. *)
Definition turn_events (G : option string) (jd : string -> option value)
    (h : list CrewAI.message) (t : turn)
    : list (event CrewAI.LLM CrewAI.message) :=
  [ Prompt CrewAI.input_prompt;
    Call (CrewAI.classifier_llm G) (CrewAIRun.classifier_request (said t));
    Call (CrewAI.gemini_llm G)
      (CrewAIRun.responder_request (persona_of (parsed_label jd (verdict t)))
         h (said t));
    Print ("Assistant: " +:+ reply t) ].

(** What a list of answered turns writes, from the history before them. *)
Fixpoint session_events (G : option string) (jd : string -> option value)
    (h : list CrewAI.message) (ts : list turn)
    : list (event CrewAI.LLM CrewAI.message) :=
  match ts with
  | [] => []
  | t :: ts' =>
      turn_events G jd h t
        ++ session_events G jd
             (h ++ exchange_with CrewAI.Build_message t) ts'
  end.

(** The world after a list of answered turns. *)
Definition world_after (G : option string) (jd : string -> option value)
    (ts : list turn) (w : CrewAI.world) : CrewAI.world :=
  {| CrewAI.state := state_after jd (CrewAI.state w) ts;
     CrewAI.classifier_feed := CrewAI.classifier_feed w;
     CrewAI.responder_feed := CrewAI.responder_feed w;
     CrewAI.log :=
       CrewAI.log w
         ++ session_events G jd
              (CrewAI.conversation_history (CrewAI.state w)) ts |}.

(** The labels the state of a flow can hold: the default, or one of the two
    the classifier step stores. *)
Definition stored_label (v : string) : Prop :=
  v = "" \/ v = "emotional" \/ v = "logical".

End CrewAISession.


(* ===================================================================== *)
(** * Strings: lowering and stripping commute *)
(* ===================================================================== *)

Lemma str_eq_true (a b : string) : (a == b) = true <-> a = b.
Proof. unfold str_eq. apply String.eqb_eq. Qed.

Lemma str_eq_false (a b : string) : (a == b) = false <-> a <> b.
Proof. unfold str_eq. apply String.eqb_neq. Qed.

(** Lowering a character does not change whether it is whitespace. *)
Lemma isspace_lower_char (c : ascii) : isspace (lower_char c) = isspace c.
Proof. destruct c as [[] [] [] [] [] [] [] []]; reflexivity. Qed.

Section StripMap.

Variable f : ascii -> ascii.
Hypothesis f_space : forall c, isspace (f c) = isspace c.

Lemma lstrip_smap (s : string) : lstrip (smap f s) = smap f (lstrip s).
Proof using f_space.
  induction s as [|c r IH]; simpl; [reflexivity|].
  rewrite f_space. destruct (isspace c); [exact IH | reflexivity].
Qed.

Lemma rstrip_smap (s : string) : rstrip (smap f s) = smap f (rstrip s).
Proof using f_space.
  induction s as [|c r IH]; simpl; [reflexivity|].
  rewrite IH, f_space.
  destruct (rstrip r) as [|c' r']; simpl; [|reflexivity].
  destruct (isspace c); reflexivity.
Qed.

Lemma strip_smap (s : string) : strip (smap f s) = smap f (strip s).
Proof using f_space.
  unfold strip. rewrite lstrip_smap. apply rstrip_smap.
Qed.

End StripMap.

(** [s.lower().strip()] and [s.strip().lower()] are the same string. *)
Lemma strip_lower (s : string) : strip (lower s) = lower (strip s).
Proof. unfold lower. apply strip_smap. exact isspace_lower_char. Qed.

(** The two loop tests agree with the specification's sentinel. *)
Lemma crewai_is_exit_iff (s : string) :
  CrewAI.is_exit s = true <-> exit_sentinel s.
Proof.
  unfold CrewAI.is_exit, exit_sentinel. rewrite strip_lower.
  apply str_eq_true.
Qed.

Lemma langgraph_is_exit_iff (s : string) :
  LangGraph.is_exit s = true <-> exit_sentinel s.
Proof. unfold LangGraph.is_exit, exit_sentinel. apply str_eq_true. Qed.

(** C10. The test of the CrewAI loop (lower, then strip, then compare with
    exit) and the test of the LangGraph loop (strip, then lower, then
    compare) give the same answer on every input string, so the two loops
    stop on exactly the same inputs. *)
Theorem exit_tests_agree (s : string) :
  CrewAI.is_exit s = LangGraph.is_exit s.
Proof.
  unfold CrewAI.is_exit, LangGraph.is_exit.
  rewrite strip_lower. reflexivity.
Qed.

(* ===================================================================== *)
(** * Transcripts *)
(* ===================================================================== *)

Section Transcript.

Context {A : Type} (mk : string -> string -> A).


Lemma transcript_with_length (ts : list turn) :
  length (transcript_with mk ts) = 2 * length ts.
Proof.
  induction ts as [|t ts IH]; [reflexivity|].
  change (transcript_with mk (t :: ts))
    with (mk "user" (said t) :: mk "assistant" (reply t)
            :: transcript_with mk ts).
  simpl. rewrite IH. lia.
Qed.


End Transcript.

(* ===================================================================== *)
(** * The label schema *)
(* ===================================================================== *)

Lemma in_literal_iff (s : string) :
  in_literal s = true <-> s = "emotional" \/ s = "logical".
Proof.
  unfold in_literal. rewrite orb_true_iff, !str_eq_true. reflexivity.
Qed.

Lemma validate_ok (d : gmap string value) (parsed : MessageClassifier) :
  validate d = Ok parsed <-> dict_valid d (mc_message_type parsed).
Proof.
  unfold validate, dict_valid. destruct parsed as [label]. simpl. split.
  - destruct (d !! "message_type") as [[| | |t| |]|]; try discriminate.
    destruct (in_literal t) eqn:Hlit; [|discriminate].
    intros [= ->]. split; [reflexivity | by apply in_literal_iff].
  - intros [-> Hlit]. apply in_literal_iff in Hlit. by rewrite Hlit.
Qed.

Lemma init_raises (data : value) (e : exn) :
  MessageClassifier_init data = Raise e ->
  e = ValidationError \/ e = TypeError.
Proof.
  destruct data as [| | | | |d]; simpl; try (intros [= <-]; tauto).
  unfold validate. destruct (d !! "message_type") as [[| | |t| |]|];
    try (intros [= <-]; tauto).
  destruct (in_literal t); [discriminate | intros [= <-]; tauto].
Qed.

Lemma init_ok (data : value) (parsed : MessageClassifier) :
  MessageClassifier_init data = Ok parsed <->
  exists d, data = VDict d /\ dict_valid d (mc_message_type parsed).
Proof.
  split.
  - destruct data as [| | | | |d]; simpl; try discriminate.
    intros H. exists d. split; [reflexivity | by apply validate_ok].
  - intros (d & -> & H). simpl. by apply validate_ok.
Qed.

(* ===================================================================== *)
(** * The CrewAI flow, step by step *)
(* ===================================================================== *)

Section CrewAIFacts.

Variable G : option string.
Variable jd : string -> option value.

Local Opaque CrewAI.classifier_prompt CrewAI.therapist_prompt
  CrewAI.logical_prompt CrewAI.input_prompt.

Lemma load_raises (result : value) (e : exn) :
  (if CrewAI.isinstance_dict result then Ok result
   else CrewAI.json_loads (CrewAI.documented jd) result) = Raise e ->
  e = JSONDecodeError \/ e = TypeError.
Proof.
  destruct result as [| | |t| |]; simpl;
    try (intros [= <-]; tauto); try discriminate.
  unfold CrewAI.documented.
  destruct (jd t); [discriminate | intros [= <-]; tauto].
Qed.

Lemma load_ok (result data : value) :
  (if CrewAI.isinstance_dict result then Ok result
   else CrewAI.json_loads (CrewAI.documented jd) result) = Ok data ->
  (exists d, result = VDict d /\ data = result)
  \/ (exists text, result = VStr text /\ jd text = Some data).
Proof.
  destruct result as [| | |t| |d]; simpl; try discriminate.
  - unfold CrewAI.documented. destruct (jd t) as [v|] eqn:E; [|discriminate].
    intros [= <-]. right. by exists t.
  - intros [= <-]. left. by exists d.
Qed.

(** The step settles on one of the two labels, whatever the answer. *)
Lemma parsed_label_cases (result : value) :
  parsed_label jd result = "emotional" \/ parsed_label jd result = "logical".
Proof.
  unfold parsed_label.
  destruct (if CrewAI.isinstance_dict result then Ok result
            else CrewAI.json_loads (CrewAI.documented jd) result) as [data|e]; [|by right].
  destruct (MessageClassifier_init data) as [parsed|e] eqn:E; [|by right].
  apply init_ok in E as (d & _ & _ & H). exact H.
Qed.

Lemma parsed_label_valid (result : value) (label : string) :
  schema_valid jd result label -> parsed_label jd result = label.
Proof.
  intros (d & Hres & Hd). unfold parsed_label.
  assert ((if CrewAI.isinstance_dict result then Ok result
           else CrewAI.json_loads (CrewAI.documented jd) result) = Ok (VDict d)) as ->.
  { destruct Hres as [-> | (text & -> & Hjd)]; simpl;
      [reflexivity | unfold CrewAI.documented; by rewrite Hjd]. }
  assert (MessageClassifier_init (VDict d) = Ok {| mc_message_type := label |})
    as ->; [|reflexivity].
  apply init_ok. by exists d.
Qed.

Lemma parsed_label_invalid (result : value) :
  (forall label, ~ schema_valid jd result label) ->
  parsed_label jd result = "logical".
Proof.
  intros Hno. unfold parsed_label.
  destruct (if CrewAI.isinstance_dict result then Ok result
            else CrewAI.json_loads (CrewAI.documented jd) result) as [data|e] eqn:Eload;
    [|reflexivity].
  destruct (MessageClassifier_init data) as [parsed|e] eqn:Einit;
    [|reflexivity].
  exfalso. apply (Hno (mc_message_type parsed)).
  apply init_ok in Einit as (d & -> & Hd). exists d. split; [|exact Hd].
  apply load_ok in Eload as [(d' & -> & Heq) | (text & -> & Hjd)].
  - left. by rewrite Heq.
  - right. by exists text.
Qed.

Lemma truthy_iff (s : string) : truthy s = true <-> s <> "".
Proof. destruct s; simpl; split; (congruence || discriminate). Qed.

(** With a message and an answer from the endpoint, the step sends one
    request, stores the label and returns it. *)
Lemma classify_run s cf rf lg (result : value) :
  truthy (CrewAI.user_message s) = true ->
  CrewAI.classify_message G (CrewAI.documented jd)
    {| CrewAI.state := s; CrewAI.classifier_feed := Ok result :: cf;
       CrewAI.responder_feed := rf; CrewAI.log := lg |}
  = (Ok (parsed_label jd result),
     {| CrewAI.state :=
          CrewAIRun.with_message_type s (parsed_label jd result);
        CrewAI.classifier_feed := cf; CrewAI.responder_feed := rf;
        CrewAI.log :=
          lg ++ [Call (CrewAI.classifier_llm G)
                   (CrewAIRun.classifier_request (CrewAI.user_message s))]
     |}).
Proof.
  intros Ht. unfold CrewAI.classify_message, parsed_label.
  cbn. rewrite Ht. cbn.
  unfold bind, try_except, lift.
  destruct (if CrewAI.isinstance_dict result then Ok result
            else CrewAI.json_loads (CrewAI.documented jd) result) as [data|e] eqn:Eload.
  - destruct (MessageClassifier_init data) as [parsed|e] eqn:Einit;
      [reflexivity|].
    apply init_raises in Einit as [-> | ->]; reflexivity.
  - apply load_raises in Eload as [-> | ->]; reflexivity.
Qed.

Lemma therapist_run (w : CrewAI.world) :
  CrewAI.therapist_response G w = CrewAIRun.respond_result G CrewAI.therapist_prompt w.
Proof.
  destruct w as [s cf [|[r|e] rf] lg]; reflexivity.
Qed.

Lemma logical_run (w : CrewAI.world) :
  CrewAI.logical_response G w = CrewAIRun.respond_result G CrewAI.logical_prompt w.
Proof.
  destruct w as [s cf [|[r|e] rf] lg]; reflexivity.
Qed.

(** One answered turn of the loop body: the sentinel test fails, the message
    is stored, the classifier and then the responder of the label are asked,
    the pair is appended and the reply printed. *)
Lemma loop_body_run s cf rf lg (t : turn) :
  CrewAIRun.completes t ->
  let label := parsed_label jd (verdict t) in
  CrewAI.loop_body G (CrewAI.documented jd) (said t)
    {| CrewAI.state := s; CrewAI.classifier_feed := Ok (verdict t) :: cf;
       CrewAI.responder_feed := Ok (reply t) :: rf; CrewAI.log := lg |}
  = (Ok (reply t == "goodbye"),
     {| CrewAI.state :=
          CrewAIRun.answered (CrewAIRun.with_user_message s (said t))
            label (reply t);
        CrewAI.classifier_feed := cf; CrewAI.responder_feed := rf;
        CrewAI.log :=
          ((lg ++ [Call (CrewAI.classifier_llm G)
                     (CrewAIRun.classifier_request (said t))])
              ++ [Call (CrewAI.gemini_llm G)
                    (CrewAIRun.responder_request (persona_of label)
                       (CrewAI.conversation_history s) (said t))])
              ++ [Print ("Assistant: " +:+ reply t)] |}).
Proof.
  intros [Hexit Hne] label.
  unfold CrewAI.loop_body. rewrite Hexit.
  unfold CrewAI.kickoff.
  unfold bind at 1. cbn [CrewAI.set_user_message bind CrewAI.get_state
    CrewAI.put_state CrewAI.state CrewAI.classifier_feed
    CrewAI.responder_feed CrewAI.log].
  unfold bind at 1. unfold bind at 1.
  rewrite classify_run by (by apply truthy_iff).
  fold label. unfold persona_of.
  destruct (parsed_label_cases (verdict t)) as [E | E];
    fold label in E; rewrite E; cbn [CrewAI.route_message];
    reflexivity.
Qed.

(** One pass of [while True] on a line of input. *)
Lemma loop_cons (u : string) (rest : list string) (w : CrewAI.world) :
  CrewAI.loop G (CrewAI.documented jd) (u :: rest) w
  = match CrewAI.loop_body G (CrewAI.documented jd) u (CrewAIRun.prompted w) with
    | (Ok true, w') => (Ok tt, w')
    | (Ok false, w') => CrewAI.loop G (CrewAI.documented jd) rest w'
    | (Raise e, w') => (Raise e, w')
    end.
Proof.
  cbn [CrewAI.loop]. unfold bind, CrewAI.emit, CrewAIRun.prompted.
  destruct (CrewAI.loop_body G (CrewAI.documented jd) u _) as [[[|]|e] w']; reflexivity.
Qed.

Lemma fed_app (ts us : list turn) (w : CrewAI.world) :
  CrewAIRun.fed (ts ++ us) w = CrewAIRun.fed ts (CrewAIRun.fed us w).
Proof.
  unfold CrewAIRun.fed, verdicts, replies. simpl.
  by rewrite !map_app, <- !app_assoc.
Qed.



End CrewAIFacts.

(* ===================================================================== *)
(** * The CrewAI classifier step under any decoder *)
(* ===================================================================== *)

Section CrewAIAnyDecoder.

Variable G : option string.
Variable jl : string -> outcome value.

Local Opaque CrewAI.classifier_prompt CrewAI.therapist_prompt
  CrewAI.logical_prompt CrewAI.input_prompt.

(** With a message and an answer from the endpoint, the step sends one
    request; it stores and returns the label of the answer, or lets the
    exception through that its [except] clause does not name, with the
    label as it was. *)
Lemma classify_any s cf rf lg (result : value) :
  truthy (CrewAI.user_message s) = true ->
  CrewAI.classify_message G jl
    {| CrewAI.state := s; CrewAI.classifier_feed := Ok result :: cf;
       CrewAI.responder_feed := rf; CrewAI.log := lg |}
  = match classified jl result with
    | Ok label =>
        (Ok label,
         {| CrewAI.state := CrewAIRun.with_message_type s label;
            CrewAI.classifier_feed := cf; CrewAI.responder_feed := rf;
            CrewAI.log :=
              lg ++ [Call (CrewAI.classifier_llm G)
                       (CrewAIRun.classifier_request
                          (CrewAI.user_message s))] |})
    | Raise e =>
        (Raise e,
         {| CrewAI.state := s;
            CrewAI.classifier_feed := cf; CrewAI.responder_feed := rf;
            CrewAI.log :=
              lg ++ [Call (CrewAI.classifier_llm G)
                       (CrewAIRun.classifier_request
                          (CrewAI.user_message s))] |})
    end.
Proof.
  intros Ht. unfold CrewAI.classify_message, classified.
  cbn. rewrite Ht. cbn.
  unfold bind, try_except, lift.
  destruct (if CrewAI.isinstance_dict result then Ok result
            else CrewAI.json_loads jl result) as [data|e] eqn:Eload.
  - destruct (MessageClassifier_init data) as [parsed|e] eqn:Einit;
      [reflexivity|].
    apply init_raises in Einit as [-> | ->]; reflexivity.
  - destruct e; reflexivity.
Qed.

(** One step of the loop. *)
Lemma loop_cons_any (u : string) (rest : list string) (w : CrewAI.world) :
  CrewAI.loop G jl (u :: rest) w
  = match CrewAI.loop_body G jl u (CrewAIRun.prompted w) with
    | (Ok true, w') => (Ok tt, w')
    | (Ok false, w') => CrewAI.loop G jl rest w'
    | (Raise e, w') => (Raise e, w')
    end.
Proof.
  cbn [CrewAI.loop]. unfold bind at 1. unfold CrewAI.emit at 1.
  fold (CrewAIRun.prompted w). unfold bind at 1.
  destruct (CrewAI.loop_body G jl u _) as [[[|]|e] w']; reflexivity.
Qed.

(** The label is one of the two. *)
Lemma classified_label (result : value) (label : string) :
  classified jl result = Ok label ->
  label = "emotional" \/ label = "logical".
Proof.
  unfold classified.
  destruct (if CrewAI.isinstance_dict result then Ok result
            else CrewAI.json_loads jl result) as [data|e].
  - destruct (MessageClassifier_init data) as [parsed|e] eqn:Einit.
    + intros [= <-]. apply init_ok in Einit as (d & _ & _ & H). exact H.
    + apply init_raises in Einit as [-> | ->]; intros [= <-]; by right.
  - destruct (existsb (exn_eqb e) caught); [|discriminate].
    intros [= <-]. by right.
Qed.

(** Only the decoder's own exceptions get through, on text. *)
Lemma classified_raises (result : value) (e : exn) :
  classified jl result = Raise e ->
  exists text,
    result = VStr text /\ jl text = Raise e
    /\ existsb (exn_eqb e) caught = false.
Proof.
  unfold classified.
  destruct result as [| | |t| |d]; try (simpl; discriminate);
    cbn [CrewAI.isinstance_dict CrewAI.json_loads].
  - destruct (jl t) as [data|e'] eqn:Ejl.
    + destruct (MessageClassifier_init data) as [parsed|e''] eqn:Einit;
        [discriminate|].
      apply init_raises in Einit as [-> | ->]; discriminate.
    + destruct (existsb (exn_eqb e') caught) eqn:Ec; [discriminate|].
      intros [= <-]. by exists t.
  - destruct (MessageClassifier_init (VDict d)) as [parsed|e'] eqn:Einit;
      [discriminate|].
    apply init_raises in Einit as [-> | ->]; discriminate.
Qed.

End CrewAIAnyDecoder.

(** Under a decoder that keeps to the documented contract the step always
    settles on a label. *)
Lemma classified_documented (jd : string -> option value) (result : value) :
  classified (CrewAI.documented jd) result = Ok (parsed_label jd result).
Proof.
  unfold classified, parsed_label.
  destruct (if CrewAI.isinstance_dict result then Ok result
            else CrewAI.json_loads (CrewAI.documented jd) result)
    as [data|e] eqn:Eload.
  - destruct (MessageClassifier_init data) as [parsed|e] eqn:Einit;
      [reflexivity|].
    apply init_raises in Einit as [-> | ->]; reflexivity.
  - apply load_raises in Eload as [-> | ->]; reflexivity.
Qed.

(* ===================================================================== *)
(** * The LangGraph graph, step by step *)
(* ===================================================================== *)

Section LangGraphFacts.

Local Opaque LangGraph.classifier_prompt LangGraph.therapist_prompt
  LangGraph.logical_prompt LangGraph.input_prompt.

(** The request the classifier node builds is refused before it is sent:
    its user entry carries the message object. *)
Lemma classifier_request_refused (m : LangGraph.message) :
  LangGraph.convert_to_messages (LangGraphRun.classifier_request m)
  = Raise ValidationError.
Proof. reflexivity. Qed.

(** The requests of the two agents carry text only. *)
Lemma agent_request_converts (persona u : string) :
  LangGraph.convert_to_messages (LangGraphRun.agent_request persona u)
  = Ok tt.
Proof. reflexivity. Qed.

(** The classifier node never returns: with no message it raises
    [IndexError], with one it raises [ValidationError]; either way the world
    is as it was. *)
Lemma lg_classify_raises st (w : LangGraph.world) :
  LangGraph.classify_message st w
  = (Raise (match last (LangGraph.messages st) with
            | Some _ => ValidationError
            | None => IndexError
            end), w).
Proof.
  unfold LangGraph.classify_message, LangGraph.last_item.
  destruct (last (LangGraph.messages st)) as [m|]; reflexivity.
Qed.



(** A run of the graph ends in its first node. *)
Lemma lg_graph_raises st (w : LangGraph.world) :
  LangGraph.graph_invoke st w
  = (Raise (match last (LangGraph.messages st) with
            | Some _ => ValidationError
            | None => IndexError
            end), w).
Proof.
  unfold LangGraph.graph_invoke, bind. rewrite lg_classify_raises.
  reflexivity.
Qed.

(** A line that is not the sentinel: the loop appends it, runs the graph,
    and the exception of the classifier node leaves the loop. *)
Lemma lg_loop_line (u : string) (rest : list string) st
    (w : LangGraph.world) :
  LangGraph.is_exit u = false ->
  LangGraph.loop (u :: rest) st w
  = (Raise ValidationError, LangGraphRun.prompted w).
Proof.
  intros Hexit. cbn [LangGraph.loop]. rewrite Hexit.
  unfold bind at 1. unfold LangGraph.emit at 1.
  unfold bind at 1. rewrite lg_graph_raises.
  cbn [LangGraph.messages]. rewrite last_snoc. reflexivity.
Qed.

(** The sentinel: the farewell, and the state as it was. *)
Lemma lg_loop_sentinel (u : string) (rest : list string) st
    (w : LangGraph.world) :
  LangGraph.is_exit u = true ->
  LangGraph.loop (u :: rest) st w = (Ok st, LangGraphRun.farewell w).
Proof.
  intros Hexit. cbn [LangGraph.loop]. rewrite Hexit. reflexivity.
Qed.

(** So the loop is decided by its first line. *)
Lemma lg_loop_cases (console : list string) st (w : LangGraph.world) :
  LangGraph.loop console st w
  = match console with
    | [] => (Raise EOFError, LangGraphRun.prompted w)
    | u :: _ =>
        if LangGraph.is_exit u then (Ok st, LangGraphRun.farewell w)
        else (Raise ValidationError, LangGraphRun.prompted w)
    end.
Proof.
  destruct console as [|u rest]; [reflexivity|].
  destruct (LangGraph.is_exit u) eqn:E.
  - by apply lg_loop_sentinel.
  - by apply lg_loop_line.
Qed.

End LangGraphFacts.

(* ===================================================================== *)
(** * Leaving the session *)
(* ===================================================================== *)

Section Leaving.

Variable G : option string.
Variable jl : string -> outcome value.

Local Opaque CrewAI.classifier_prompt CrewAI.therapist_prompt
  CrewAI.logical_prompt CrewAI.input_prompt
  LangGraph.classifier_prompt LangGraph.therapist_prompt
  LangGraph.logical_prompt LangGraph.input_prompt.

(** The CrewAI loop on a line its test accepts: it breaks after the prompt. *)
Lemma crewai_loop_exit (s : string) (rest : list string) (w : CrewAI.world) :
  CrewAI.is_exit s = true ->
  CrewAI.loop G jl (s :: rest) w = (Ok tt, CrewAIRun.prompted w).
Proof.
  intros H. rewrite loop_cons_any. unfold CrewAI.loop_body. rewrite H.
  reflexivity.
Qed.

(** The LangGraph loop on a line its test accepts: farewell, then break. *)
Lemma langgraph_loop_exit (s : string) (rest : list string) st
    (w : LangGraph.world) :
  LangGraph.is_exit s = true ->
  LangGraph.loop (s :: rest) st w
  = (Ok st,
     {| LangGraph.classifier_feed := LangGraph.classifier_feed w;
        LangGraph.responder_feed := LangGraph.responder_feed w;
        LangGraph.log :=
          (LangGraph.log w ++ [Prompt LangGraph.input_prompt])
            ++ [Print "Bye"] |}).
Proof.
  intros H. cbn [LangGraph.loop]. rewrite H. reflexivity.
Qed.

(** The CrewAI loop on an empty line: the flow runs, the classifier step
    returns the exit signal without a request, the exit listener says
    goodbye, and the loop breaks. *)
Lemma crewai_loop_empty (rest : list string) (w : CrewAI.world) :
  CrewAI.loop G jl ("" :: rest) w
  = (Ok tt,
     {| CrewAI.state := CrewAIRun.with_user_message (CrewAI.state w) "";
        CrewAI.classifier_feed := CrewAI.classifier_feed w;
        CrewAI.responder_feed := CrewAI.responder_feed w;
        CrewAI.log :=
          (CrewAI.log w ++ [Prompt CrewAI.input_prompt]) ++ [Print "Bye"] |}).
Proof.
  rewrite loop_cons_any. unfold CrewAI.loop_body. cbn.
  rewrite orb_true_r. reflexivity.
Qed.

End Leaving.

(** C6. For every console input that equals exit once its surrounding
    whitespace is trimmed and letter case is ignored, both loops end
    normally on that input without a request to the endpoint: the CrewAI
    loop has only written its prompt, the LangGraph loop its prompt and its
    farewell, and the scripts of answers are untouched. *)
Theorem sentinel_ends_session (s : string) (Hs : exit_sentinel s) :
  (forall G jl rest w,
     CrewAI.loop G jl (s :: rest) w = (Ok tt, CrewAIRun.prompted w)
     /\ CrewAI.classifier_feed (CrewAIRun.prompted w)
        = CrewAI.classifier_feed w
     /\ CrewAI.log (CrewAIRun.prompted w)
        = CrewAI.log w ++ [Prompt CrewAI.input_prompt])
  /\ (forall rest st w,
        exists w',
          LangGraph.loop (s :: rest) st w = (Ok st, w')
          /\ LangGraph.classifier_feed w' = LangGraph.classifier_feed w
          /\ LangGraph.log w'
             = LangGraph.log w
                 ++ [Prompt LangGraph.input_prompt; Print "Bye"]).
Proof.
  split.
  - intros G jl rest w. split; [|split; reflexivity].
    apply crewai_loop_exit. by apply crewai_is_exit_iff.
  - intros rest st w. eexists. split; [|split].
    + apply langgraph_loop_exit. by apply langgraph_is_exit_iff.
    + reflexivity.
    + cbn [LangGraph.log]. by rewrite <- app_assoc.
Qed.

(** C7. On the input exit the CrewAI loop breaks having written its prompt
    and nothing else, so no farewell is printed on that path; the LangGraph
    loop on the same input, and the CrewAI flow on an empty line, both end
    with the farewell. *)
Theorem crewai_sentinel_prints_no_farewell (G : option string)
    (jl : string -> outcome value) (rest : list string)
    (cs : list (outcome value)) (rs : list (outcome string)) :
  fst (CrewAI.run_chatbot G jl ("exit" :: rest) cs rs) = Ok tt
  /\ CrewAI.log (snd (CrewAI.run_chatbot G jl ("exit" :: rest) cs rs))
     = [Prompt CrewAI.input_prompt]
  /\ LangGraph.log (snd (LangGraph.run_chatbot ("exit" :: rest) cs rs))
     = [Prompt LangGraph.input_prompt; Print "Bye"]
  /\ CrewAI.log (snd (CrewAI.run_chatbot G jl ("" :: rest) cs rs))
     = [Prompt CrewAI.input_prompt; Print "Bye"].
Proof.
  unfold CrewAI.run_chatbot, LangGraph.run_chatbot.
  rewrite crewai_loop_exit by reflexivity.
  rewrite langgraph_loop_exit by reflexivity.
  rewrite crewai_loop_empty.
  repeat split.
Qed.

Lemma sentinel_ends_session_witness :
  exit_sentinel "  ExIt "
  /\ CrewAI.loop None (CrewAI.documented sample_json_decode) ["  ExIt "; "hello"]
       (CrewAI.fresh [] [])
     = (Ok tt, CrewAIRun.prompted (CrewAI.fresh [] [])).
Proof.
  split; [reflexivity|].
  exact (proj1 (proj1 (sentinel_ends_session "  ExIt " eq_refl)
                  None (CrewAI.documented sample_json_decode) ["hello"]
                  (CrewAI.fresh [] []))).
Defined.

(* ===================================================================== *)
(** * What each step does to the world *)
(* ===================================================================== *)

Section Frames.

Variable G : option string.
Variable jl : string -> outcome value.

Local Opaque CrewAI.classifier_prompt CrewAI.therapist_prompt
  CrewAI.logical_prompt CrewAI.input_prompt
  LangGraph.classifier_prompt LangGraph.therapist_prompt
  LangGraph.logical_prompt LangGraph.input_prompt.

(** The classifier step of the flow: at most one request, by the classifier
    client, for the message in the state; the history is not touched, on
    any path. *)
Lemma crewai_classify_frame (w : CrewAI.world) :
  CrewAI.conversation_history (CrewAI.state (snd (CrewAI.classify_message G jl w)))
  = CrewAI.conversation_history (CrewAI.state w)
  /\ CrewAI.log (snd (CrewAI.classify_message G jl w))
     = CrewAI.log w
         ++ (if truthy (CrewAI.user_message (CrewAI.state w))
             then [Call (CrewAI.classifier_llm G)
                     (CrewAIRun.classifier_request
                        (CrewAI.user_message (CrewAI.state w)))]
             else []).
Proof.
  destruct w as [s cf rf lg].
  cbn [CrewAI.state CrewAI.log].
  destruct (truthy (CrewAI.user_message s)) eqn:Ht.
  - destruct cf as [|[result|e] cf].
    + unfold CrewAI.classify_message, bind, CrewAI.get_state.
      cbn [CrewAI.state]. rewrite Ht. split; reflexivity.
    + rewrite classify_any by exact Ht.
      destruct (classified jl result); split; reflexivity.
    + unfold CrewAI.classify_message, bind, CrewAI.get_state.
      cbn [CrewAI.state]. rewrite Ht. split; reflexivity.
  - unfold CrewAI.classify_message, bind, CrewAI.get_state.
    cbn [CrewAI.state]. rewrite Ht. cbn. by rewrite app_nil_r.
Qed.

(** A responder of the flow: one request, by the responder client, carrying
    the persona, the history and the message; the pair is appended exactly
    when a reply comes back. *)
Lemma crewai_respond_frame (persona : string) (w : CrewAI.world) :
  CrewAI.conversation_history
    (CrewAI.state (snd (CrewAIRun.respond_result G persona w)))
  = CrewAI.conversation_history (CrewAI.state w)
      ++ match CrewAI.responder_feed w with
         | Ok r :: _ =>
             [ {| CrewAI.role := "user";
                  CrewAI.content := CrewAI.user_message (CrewAI.state w) |};
               {| CrewAI.role := "assistant"; CrewAI.content := r |} ]
         | _ => []
         end
  /\ exists tail,
       CrewAI.log (snd (CrewAIRun.respond_result G persona w))
       = CrewAI.log w
           ++ Call (CrewAI.gemini_llm G)
                (CrewAIRun.responder_request persona
                   (CrewAI.conversation_history (CrewAI.state w))
                   (CrewAI.user_message (CrewAI.state w)))
              :: tail
       /\ existsb is_call tail = false.
Proof.
  destruct w as [s cf [|[r|e] rf] lg]; unfold CrewAIRun.respond_result;
    cbn [CrewAI.state CrewAI.responder_feed CrewAI.log snd
         CrewAI.classifier_feed CrewAIRun.answered
         CrewAI.conversation_history].
  - split; [by rewrite app_nil_r|]. by exists [].
  - split; [reflexivity|]. exists [Print ("Assistant: " +:+ r)].
    split; [by rewrite <- app_assoc | reflexivity].
  - split; [by rewrite app_nil_r|]. by exists [].
Qed.

(** An agent of the graph: one request, the persona and the content of the
    last message; without a last message, an [IndexError] and no request. *)
Lemma lg_therapist_log st (w : LangGraph.world) :
  match last (LangGraph.messages st) with
  | Some m =>
      LangGraph.log (snd (LangGraph.therapist_agent st w))
      = LangGraph.log w
          ++ [Call LangGraph.llm
                (LangGraphRun.agent_request LangGraph.therapist_prompt
                   (LangGraph.content m))]
  | None => LangGraph.therapist_agent st w = (Raise IndexError, w)
  end.
Proof.
  unfold LangGraph.therapist_agent, LangGraph.last_item.
  destruct (last (LangGraph.messages st)) as [m|]; [|reflexivity].
  destruct w as [cf [|[r|e] rf] lg]; reflexivity.
Qed.

Lemma lg_logical_log st (w : LangGraph.world) :
  match last (LangGraph.messages st) with
  | Some m =>
      LangGraph.log (snd (LangGraph.logical_agent st w))
      = LangGraph.log w
          ++ [Call LangGraph.llm
                (LangGraphRun.agent_request LangGraph.logical_prompt
                   (LangGraph.content m))]
  | None => LangGraph.logical_agent st w = (Raise IndexError, w)
  end.
Proof.
  unfold LangGraph.logical_agent, LangGraph.last_item.
  destruct (last (LangGraph.messages st)) as [m|]; [|reflexivity].
  destruct w as [cf [|[r|e] rf] lg]; reflexivity.
Qed.

End Frames.

(* ===================================================================== *)
(** * History over a session *)
(* ===================================================================== *)

Section Sessions.

Variable G : option string.
Variable jd : string -> option value.


End Sessions.



(* ===================================================================== *)
(** * The message list of a responder *)
(* ===================================================================== *)

(** C1, as stated, fails on the graph: with one pair of history before the
    new message, the therapist agent sends the persona instruction and the
    new message only, which is not the list with the history in between. *)
Lemma langgraph_agent_sends_no_history :
  LangGraph.log
    (snd (LangGraph.therapist_agent LangGraphRun.sample_state
            (LangGraph.fresh [] [Ok "Let us look at it together."])))
  = [Call LangGraph.llm
       (LangGraphRun.agent_request LangGraph.therapist_prompt "What now?")]
  /\ LangGraphRun.agent_request LangGraph.therapist_prompt "What now?"
     <> LangGraphRun.responder_request LangGraph.therapist_prompt
          [ {| LangGraph.role := "user";
               LangGraph.content := "I failed my exam" |};
            {| LangGraph.role := "assistant";
               LangGraph.content := "That sounds hard." |} ]
          "What now?".
Proof.
  split; [reflexivity|].
  intros H. apply (f_equal length) in H. discriminate H.
Qed.

(** C1, amended.  Every call of a responder of the CrewAI flow sends one
    request, by the responder client, whose message list is the persona
    instruction, then the whole history in order, then the new user turn.
    Every call of an agent of the LangGraph graph sends one request whose
    message list is the persona instruction and then a user message with the
    content of the last message of the state; the earlier history is not
    sent. *)
Theorem responder_message_list :
  (forall G w,
     exists tail,
       CrewAI.log (snd (CrewAI.therapist_response G w))
       = CrewAI.log w
           ++ Call (CrewAI.gemini_llm G)
                (CrewAIRun.responder_request CrewAI.therapist_prompt
                   (CrewAI.conversation_history (CrewAI.state w))
                   (CrewAI.user_message (CrewAI.state w)))
              :: tail
       /\ existsb is_call tail = false)
  /\ (forall G w,
        exists tail,
          CrewAI.log (snd (CrewAI.logical_response G w))
          = CrewAI.log w
              ++ Call (CrewAI.gemini_llm G)
                   (CrewAIRun.responder_request CrewAI.logical_prompt
                      (CrewAI.conversation_history (CrewAI.state w))
                      (CrewAI.user_message (CrewAI.state w)))
                 :: tail
          /\ existsb is_call tail = false)
  /\ (forall st w,
        match last (LangGraph.messages st) with
        | Some m =>
            LangGraph.log (snd (LangGraph.therapist_agent st w))
            = LangGraph.log w
                ++ [Call LangGraph.llm
                      (LangGraphRun.agent_request LangGraph.therapist_prompt
                         (LangGraph.content m))]
        | None => LangGraph.therapist_agent st w = (Raise IndexError, w)
        end)
  /\ (forall st w,
        match last (LangGraph.messages st) with
        | Some m =>
            LangGraph.log (snd (LangGraph.logical_agent st w))
            = LangGraph.log w
                ++ [Call LangGraph.llm
                      (LangGraphRun.agent_request LangGraph.logical_prompt
                         (LangGraph.content m))]
        | None => LangGraph.logical_agent st w = (Raise IndexError, w)
        end).
Proof.
  split; [|split; [|split]].
  - intros G w. rewrite therapist_run. apply crewai_respond_frame.
  - intros G w. rewrite logical_run. apply crewai_respond_frame.
  - apply lg_therapist_log.
  - apply lg_logical_log.
Qed.

(* ===================================================================== *)
(** * The history field, step by step *)
(* ===================================================================== *)

(** C9. In the CrewAI flow, the classifier step and the exit listener leave
    the conversation history as it was, on every path; the router is a
    function of its argument and has no access to the state; each of the two
    responders appends exactly the user entry and then the assistant entry
    when a reply comes back, and nothing when the call fails. *)
Theorem history_frame (G : option string) (jl : string -> outcome value)
    (w : CrewAI.world) :
  CrewAI.conversation_history
    (CrewAI.state (snd (CrewAI.classify_message G jl w)))
  = CrewAI.conversation_history (CrewAI.state w)
  /\ (forall label, snd (ret (CrewAI.route_message label) w) = w)
  /\ CrewAI.conversation_history (CrewAI.state (snd (CrewAI.handle_exit w)))
     = CrewAI.conversation_history (CrewAI.state w)
  /\ CrewAI.conversation_history
       (CrewAI.state (snd (CrewAI.therapist_response G w)))
     = CrewAI.conversation_history (CrewAI.state w)
         ++ match CrewAI.responder_feed w with
            | Ok r :: _ =>
                [ {| CrewAI.role := "user";
                     CrewAI.content := CrewAI.user_message (CrewAI.state w) |};
                  {| CrewAI.role := "assistant"; CrewAI.content := r |} ]
            | _ => []
            end
  /\ CrewAI.conversation_history
       (CrewAI.state (snd (CrewAI.logical_response G w)))
     = CrewAI.conversation_history (CrewAI.state w)
         ++ match CrewAI.responder_feed w with
            | Ok r :: _ =>
                [ {| CrewAI.role := "user";
                     CrewAI.content := CrewAI.user_message (CrewAI.state w) |};
                  {| CrewAI.role := "assistant"; CrewAI.content := r |} ]
            | _ => []
            end.
Proof.
  split; [apply crewai_classify_frame|].
  split; [reflexivity|]. split; [reflexivity|]. split.
  - rewrite therapist_run. apply crewai_respond_frame.
  - rewrite logical_run. apply crewai_respond_frame.
Qed.

(* ===================================================================== *)
(** * Classification and its fallback *)
(* ===================================================================== *)

(** C2.  Errors of the classification step do reach its caller.  In the
    LangGraph graph the classifier node raises on every state, before any
    request: the user entry of its request carries the message object and
    not its text, and the client refuses it.  So a run whose first line is
    not the sentinel ends in [ValidationError] with only the prompt written
    and the scripted answers unused, also when the classifier's answer would
    have been a valid label.  In the CrewAI flow the [except] clause names
    three exceptions; an answer on which [json.loads] raises another one,
    here the text of an integer of 4301 digits, is not caught: no label is
    stored and the exception leaves the step and the loop.  An answer with a
    label outside the two, by contrast, ends in the label logical there. *)
Theorem classification_errors_reach_caller :
  LangGraph.run_chatbot ["I feel sad"; "exit"]
    [Ok (VDict (label_dict "emotional"))] [Ok "There, there."]
  = (Raise ValidationError,
     {| LangGraph.classifier_feed := [Ok (VDict (label_dict "emotional"))];
        LangGraph.responder_feed := [Ok "There, there."];
        LangGraph.log := [Prompt LangGraph.input_prompt] |})
  /\ (forall st w,
        LangGraph.classify_message st w
        = (Raise (match last (LangGraph.messages st) with
                  | Some _ => ValidationError
                  | None => IndexError
                  end), w))
  /\ fst (CrewAI.classify_message None sample_json_loads
            {| CrewAI.state :=
                 CrewAIRun.with_user_message CrewAI.MessageState_default
                   "How many stars are there?";
               CrewAI.classifier_feed := [Ok (VStr (digits 4301))];
               CrewAI.responder_feed := [Ok "Many."];
               CrewAI.log := [] |})
     = Raise ValueError
  /\ CrewAI.message_type
       (CrewAI.state
          (snd (CrewAI.classify_message None sample_json_loads
                  {| CrewAI.state :=
                       CrewAIRun.with_user_message
                         CrewAI.MessageState_default
                         "How many stars are there?";
                     CrewAI.classifier_feed := [Ok (VStr (digits 4301))];
                     CrewAI.responder_feed := [Ok "Many."];
                     CrewAI.log := [] |})))
     = ""
  /\ fst (CrewAI.run_chatbot None sample_json_loads
            ["How many stars are there?"; "exit"]
            [Ok (VStr (digits 4301))] [Ok "Many."])
     = Raise ValueError
  /\ fst (CrewAI.classify_message None sample_json_loads
            {| CrewAI.state :=
                 CrewAIRun.with_user_message CrewAI.MessageState_default
                   "I feel sad";
               CrewAI.classifier_feed := [Ok (VDict (label_dict "angry"))];
               CrewAI.responder_feed := [Ok "There, there."];
               CrewAI.log := [] |})
     = Ok "logical".
Proof.
  split; [reflexivity|]. split; [apply lg_classify_raises|].
  repeat split; vm_compute; reflexivity.
Qed.

(** What the two scripts do with the classifier's answer.  In the CrewAI
    flow, for a non-empty message and any answer of the classifier client,
    under a decoder that keeps to the documented contract of [json.loads],
    the classifier step raises nothing and stores and returns a label: the
    answer's [message_type] when the answer validates, and exactly logical
    when it does not (text that is not JSON, a value of the wrong type, a
    missing field, a value outside the two labels).  Under any decoder the
    step either stores and returns one of the two labels, or the answer is
    text on which the decoder raises an exception the [except] clause does
    not name, and then that exception leaves the step with the state as it
    was.  In the LangGraph graph the router sends every state whose
    [message_type] is missing, None or anything but emotional to the logical
    branch. *)
Theorem classification_fallback :
  (forall G jd s cf rf lg result,
     CrewAI.user_message s <> "" ->
     exists label w',
       CrewAI.classify_message G (CrewAI.documented jd)
         {| CrewAI.state := s; CrewAI.classifier_feed := Ok result :: cf;
            CrewAI.responder_feed := rf; CrewAI.log := lg |}
       = (Ok label, w')
       /\ CrewAI.message_type (CrewAI.state w') = label
       /\ (forall l, schema_valid jd result l -> label = l)
       /\ ((forall l, ~ schema_valid jd result l) -> label = "logical"))
  /\ (forall G jl s cf rf lg result,
        CrewAI.user_message s <> "" ->
        exists o w',
          CrewAI.classify_message G jl
            {| CrewAI.state := s; CrewAI.classifier_feed := Ok result :: cf;
               CrewAI.responder_feed := rf; CrewAI.log := lg |}
          = (o, w')
          /\ ((exists label,
                 o = Ok label
                 /\ CrewAI.message_type (CrewAI.state w') = label
                 /\ (label = "emotional" \/ label = "logical"))
              \/ (exists e text,
                    o = Raise e /\ CrewAI.state w' = s
                    /\ result = VStr text /\ jl text = Raise e
                    /\ existsb (exn_eqb e) caught = false)))
  /\ (forall ms mt,
        mt <> Some (Some "emotional") ->
        LangGraph.router
          {| LangGraph.messages := ms; LangGraph.message_type := mt |}
        = LangGraph.NextUpdate "logical").
Proof.
  split; [|split].
  - intros G jd s cf rf lg result Hne.
    eexists _, _. split; [apply classify_run; by apply truthy_iff|].
    split; [reflexivity|]. split.
    + intros l Hl. by apply parsed_label_valid.
    + apply parsed_label_invalid.
  - intros G jl s cf rf lg result Hne.
    rewrite classify_any by (by apply truthy_iff).
    destruct (classified jl result) as [label|e] eqn:E;
      eexists _, _; (split; [reflexivity|]).
    + left. exists label. split; [reflexivity|]. split; [reflexivity|].
      by apply (classified_label jl result).
    + right. apply classified_raises in E as (text & -> & Hjl & Hc).
      by exists e, text.
  - intros ms mt Hmt. unfold LangGraph.router. cbn [LangGraph.message_type].
    destruct mt as [[t|]|]; try reflexivity.
    destruct (t == "emotional") eqn:E; [|reflexivity].
    apply str_eq_true in E. congruence.
Qed.

Lemma classification_fallback_witness :
  exists w',
    CrewAI.classify_message None (CrewAI.documented sample_json_decode)
      {| CrewAI.state :=
           CrewAIRun.with_user_message CrewAI.MessageState_default
             "Is it going to rain?";
         CrewAI.classifier_feed := [Ok (VStr "I would say logical")];
         CrewAI.responder_feed := []; CrewAI.log := [] |}
    = (Ok "logical", w')
    /\ CrewAI.message_type (CrewAI.state w') = "logical".
Proof.
  destruct (proj1 classification_fallback None sample_json_decode
              (CrewAIRun.with_user_message CrewAI.MessageState_default
                 "Is it going to rain?")
              [] [] [] (VStr "I would say logical"))
    as (label & w' & Hrun & Hmt & _ & Hfall).
  - discriminate.
  - assert (label = "logical") as ->.
    { apply Hfall. intros l (d & [H | (text & H & Hjd)] & _).
      - discriminate H.
      - injection H as <-. discriminate Hjd. }
    exists w'. split; [exact Hrun | exact Hmt].
Defined.

(* ===================================================================== *)
(** * The router *)
(* ===================================================================== *)

(** C3, as stated, fails on the graph: the router of the LangGraph graph
    has no exit branch.  Handed the termination signal as the label, on a
    state whose last message is empty, it names the logical branch, and so
    does the conditional edge that reads its answer. *)
Lemma langgraph_router_has_no_exit_branch :
  LangGraph.router
    {| LangGraph.messages :=
         [ {| LangGraph.role := "user"; LangGraph.content := "" |} ];
       LangGraph.message_type := Some (Some "exit") |}
  = LangGraph.NextUpdate "logical"
  /\ LangGraph.conditional_edge
       (LangGraph.router
          {| LangGraph.messages :=
               [ {| LangGraph.role := "user"; LangGraph.content := "" |} ];
             LangGraph.message_type := Some (Some "exit") |})
     <> Some "exit".
Proof. split; [reflexivity | discriminate]. Qed.

(** C3, amended.  The router of the CrewAI flow is a function of the label
    alone; it sends emotional to the therapist branch, logical to the
    logical branch and the termination signal to the exit branch, takes the
    therapist branch for emotional only and the exit branch for the signal
    only, and never names another branch.  The router of the LangGraph graph
    is a function of the state alone and reads only its [message_type]; it
    sends emotional to the therapist branch, and logical and every other
    value, a missing key, None and the termination signal among them, to the
    logical branch; it never names another branch, so it has no exit
    branch. *)
Theorem router_decision_table :
  CrewAI.route_message "emotional" = "therapist"
  /\ CrewAI.route_message "logical" = "logical"
  /\ CrewAI.route_message "exit" = "exit"
  /\ (forall l, (CrewAI.route_message l == "therapist") = (l == "emotional"))
  /\ (forall l, (CrewAI.route_message l == "exit") = (l == "exit"))
  /\ (forall l, CrewAI.route_message l = "therapist"
                \/ CrewAI.route_message l = "logical"
                \/ CrewAI.route_message l = "exit")
  /\ (forall ms,
        LangGraph.router
          {| LangGraph.messages := ms;
             LangGraph.message_type := Some (Some "emotional") |}
        = LangGraph.NextUpdate "therapist")
  /\ (forall ms,
        LangGraph.router
          {| LangGraph.messages := ms;
             LangGraph.message_type := Some (Some "logical") |}
        = LangGraph.NextUpdate "logical")
  /\ (forall ms mt,
        mt <> Some (Some "emotional") ->
        LangGraph.router
          {| LangGraph.messages := ms; LangGraph.message_type := mt |}
        = LangGraph.NextUpdate "logical")
  /\ (forall ms ms' mt,
        LangGraph.router
          {| LangGraph.messages := ms; LangGraph.message_type := mt |}
        = LangGraph.router
            {| LangGraph.messages := ms'; LangGraph.message_type := mt |})
  /\ (forall st, LangGraph.router st = LangGraph.NextUpdate "therapist"
                 \/ LangGraph.router st = LangGraph.NextUpdate "logical")
  /\ (forall st,
        LangGraph.conditional_edge (LangGraph.router st) = Some "therapist"
        \/ LangGraph.conditional_edge (LangGraph.router st)
           = Some "logical").
Proof.
  repeat match goal with |- _ /\ _ => split end; try reflexivity.
  - intros l. unfold CrewAI.route_message.
    destruct (l == "exit") eqn:E1, (l == "emotional") eqn:E2;
      try reflexivity.
    apply str_eq_true in E1, E2. subst l. discriminate E2.
  - intros l. unfold CrewAI.route_message.
    destruct (l == "exit"), (l == "emotional"); reflexivity.
  - intros l. unfold CrewAI.route_message.
    destruct (l == "exit"), (l == "emotional"); tauto.
  - intros ms mt Hmt. unfold LangGraph.router. cbn [LangGraph.message_type].
    destruct mt as [[t|]|]; try reflexivity.
    destruct (t == "emotional") eqn:E; [|reflexivity].
    apply str_eq_true in E. congruence.
  - intros st. unfold LangGraph.router.
    destruct (match _ with Some s => s == "emotional" | None => false end);
      tauto.
  - intros st. unfold LangGraph.router.
    destruct (match _ with Some s => s == "emotional" | None => false end);
      cbn [LangGraph.conditional_edge]; tauto.
Qed.

Lemma router_decision_table_witness :
  Some (Some "exit") <> Some (Some "emotional")
  /\ LangGraph.router
       {| LangGraph.messages :=
            [ {| LangGraph.role := "user"; LangGraph.content := "bye" |} ];
          LangGraph.message_type := Some (Some "exit") |}
     = LangGraph.NextUpdate "logical"
  /\ LangGraph.router
       {| LangGraph.messages := [];
          LangGraph.message_type := None |}
     = LangGraph.NextUpdate "logical".
Proof.
  split; [discriminate|]. split.
  - apply (proj1 (proj2 (proj2 (proj2 (proj2 (proj2 (proj2 (proj2 (proj2
             router_decision_table))))))))).
    discriminate.
  - apply (proj1 (proj2 (proj2 (proj2 (proj2 (proj2 (proj2 (proj2 (proj2
             router_decision_table))))))))).
    discriminate.
Defined.

(* ===================================================================== *)
(** * An empty message *)
(* ===================================================================== *)

(** C4, as stated, fails on the LangGraph loop: an empty line is not the
    sentinel, so the loop does not take its farewell path; the line goes to
    the graph, whose router has no exit branch, and the run does not end
    through one: it stops at the exception of the classifier node, with the
    prompt written and no farewell. *)
Lemma langgraph_empty_line_is_no_exit :
  LangGraph.is_exit "" = false
  /\ LangGraph.run_chatbot [""; "exit"]
       [Ok (VDict (label_dict "logical"))] [Ok "Please say more."]
     = (Raise ValidationError,
        {| LangGraph.classifier_feed := [Ok (VDict (label_dict "logical"))];
           LangGraph.responder_feed := [Ok "Please say more."];
           LangGraph.log := [Prompt LangGraph.input_prompt] |})
  /\ LangGraph.conditional_edge
       (LangGraph.router
          {| LangGraph.messages :=
               [ {| LangGraph.role := "user"; LangGraph.content := "" |} ];
             LangGraph.message_type := Some None |})
     = Some "logical".
Proof. repeat split. Qed.

(** C4, amended.  In the CrewAI flow, when the user message is the empty
    string the classifier step returns the exit signal and leaves the world
    as it was (no request), the router takes the exit branch, and the loop
    ends having written its prompt and the farewell, the scripts of answers
    untouched.  The LangGraph loop has no such case: its test for the
    sentinel fails on the empty line, and the router of its graph has no
    exit branch, it names the therapist or the logical branch on every
    state. *)
Theorem empty_message_handling :
  (forall G jl s cf rf lg,
     CrewAI.classify_message G jl
       {| CrewAI.state := CrewAIRun.with_user_message s "";
          CrewAI.classifier_feed := cf; CrewAI.responder_feed := rf;
          CrewAI.log := lg |}
     = (Ok "exit",
        {| CrewAI.state := CrewAIRun.with_user_message s "";
           CrewAI.classifier_feed := cf; CrewAI.responder_feed := rf;
           CrewAI.log := lg |}))
  /\ CrewAI.route_message "exit" = "exit"
  /\ (forall G jl rest w,
        exists w',
          CrewAI.loop G jl ("" :: rest) w = (Ok tt, w')
          /\ CrewAI.log w'
             = CrewAI.log w ++ [Prompt CrewAI.input_prompt; Print "Bye"]
          /\ CrewAI.classifier_feed w' = CrewAI.classifier_feed w
          /\ CrewAI.responder_feed w' = CrewAI.responder_feed w)
  /\ LangGraph.is_exit "" = false
  /\ (forall rest st w,
        LangGraph.loop ("" :: rest) st w
        <> (Ok st, LangGraphRun.farewell w))
  /\ (forall st,
        LangGraph.conditional_edge (LangGraph.router st) = Some "therapist"
        \/ LangGraph.conditional_edge (LangGraph.router st)
           = Some "logical").
Proof.
  split; [|split; [|split; [|split; [|split]]]].
  - intros. reflexivity.
  - reflexivity.
  - intros G jl rest w. eexists. split; [apply crewai_loop_empty|].
    cbn [CrewAI.log CrewAI.classifier_feed CrewAI.responder_feed].
    split; [by rewrite <- app_assoc | split; reflexivity].
  - reflexivity.
  - intros rest st w. rewrite lg_loop_line by reflexivity. discriminate.
  - intros st. unfold LangGraph.router.
    destruct (match _ with Some s => s == "emotional" | None => false end);
      cbn [LangGraph.conditional_edge]; tauto.
Qed.

(* ===================================================================== *)
(** * The clients *)
(* ===================================================================== *)

(** C8, as stated, fails: the classifier client of the CrewAI flow is built
    without a temperature and without a bound on the output tokens, and the
    LangGraph client names its model itself and has no bound either. *)
Lemma clients_not_as_specified :
  ~ as_specified (Some "gemini/gemini-2.0-flash")
      (CrewAI.model (CrewAI.classifier_llm (Some "gemini/gemini-2.0-flash")))
      (CrewAI.temperature
         (CrewAI.classifier_llm (Some "gemini/gemini-2.0-flash")))
      (CrewAI.max_tokens
         (CrewAI.classifier_llm (Some "gemini/gemini-2.0-flash")))
  /\ ~ as_specified (Some "gemini/gemini-2.0-flash")
         (Some (LangGraph.model LangGraph.llm))
         (LangGraph.temperature LangGraph.llm)
         (LangGraph.max_tokens LangGraph.llm).
Proof.
  split; intros (Hm & Ht & bound & Hb); discriminate.
Qed.

(** C8, amended.  The responder client of the CrewAI flow is configured with
    the environment's model, temperature 0 and at most 4096 output tokens.
    The classifier client of the CrewAI flow is configured with the
    environment's model and the label schema, and with neither a temperature
    nor a token bound.  The LangGraph client, and the classifier client made
    from it, are configured with the fixed model gemini-2.5-flash,
    temperature 0, no token bound, no timeout and two retries.  These are
    the clients on the requests the steps send. *)
Theorem client_configurations (G : option string) :
  (as_specified G (CrewAI.model (CrewAI.gemini_llm G))
     (CrewAI.temperature (CrewAI.gemini_llm G))
     (CrewAI.max_tokens (CrewAI.gemini_llm G))
   /\ CrewAI.max_tokens (CrewAI.gemini_llm G) = Some 4096%Z)
  /\ (CrewAI.model (CrewAI.classifier_llm G) = G
      /\ CrewAI.temperature (CrewAI.classifier_llm G) = None
      /\ CrewAI.max_tokens (CrewAI.classifier_llm G) = None
      /\ CrewAI.response_format (CrewAI.classifier_llm G)
         = Some CrewAI.MessageClassifierClass)
  /\ (forall client,
        client = LangGraph.llm \/ client = LangGraphRun.classifier_llm ->
        LangGraph.model client = "gemini-2.5-flash"
        /\ LangGraph.temperature client = Some 0%Z
        /\ LangGraph.max_tokens client = None
        /\ LangGraph.timeout client = None
        /\ LangGraph.max_retries client = 2%Z)
  /\ (forall jl w,
        exists sent,
          CrewAI.log (snd (CrewAI.classify_message G jl w))
          = CrewAI.log w ++ sent
          /\ Forall (fun e => forall c ms,
                       e = Call c ms -> c = CrewAI.classifier_llm G) sent)
  /\ (forall w,
        exists sent,
          CrewAI.log (snd (CrewAI.therapist_response G w))
          = CrewAI.log w ++ sent
          /\ Forall (fun e => forall c ms,
                       e = Call c ms -> c = CrewAI.gemini_llm G) sent)
  /\ (forall w,
        exists sent,
          CrewAI.log (snd (CrewAI.logical_response G w))
          = CrewAI.log w ++ sent
          /\ Forall (fun e => forall c ms,
                       e = Call c ms -> c = CrewAI.gemini_llm G) sent).
Proof.
  assert (Hresp : forall persona w,
            exists sent,
              CrewAI.log (snd (CrewAIRun.respond_result G persona w))
              = CrewAI.log w ++ sent
              /\ Forall (fun e => forall c ms,
                           e = Call c ms -> c = CrewAI.gemini_llm G) sent).
  { intros persona w.
    destruct (crewai_respond_frame G persona w) as (_ & tail & Hlog & Hno).
    eexists. split; [exact Hlog|]. constructor.
    - by intros c ms [= <- _].
    - apply Forall_forall. intros e He c ms ->.
      assert (existsb is_call tail = true) as Hyes; [|congruence].
      apply existsb_exists. exists (Call c ms).
      split; [by apply list_elem_of_In | reflexivity]. }
  split; [|split; [|split; [|split; [|split]]]].
  - split; [|reflexivity]. repeat split. by exists 4096%Z.
  - repeat split.
  - intros client [-> | ->]; repeat split.
  - intros jl w. destruct (crewai_classify_frame G jl w) as [_ Hlog].
    eexists. split; [exact Hlog|].
    destruct (truthy _); repeat constructor. by intros c ms [= <- _].
  - intros w. rewrite therapist_run. apply Hresp.
  - intros w. rewrite logical_run. apply Hresp.
Qed.

Lemma client_configurations_witness :
  LangGraph.model LangGraphRun.classifier_llm = "gemini-2.5-flash"
  /\ LangGraph.temperature LangGraphRun.classifier_llm = Some 0%Z
  /\ LangGraph.max_tokens LangGraphRun.classifier_llm = None
  /\ LangGraph.timeout LangGraphRun.classifier_llm = None
  /\ LangGraph.max_retries LangGraphRun.classifier_llm = 2%Z.
Proof.
  apply (proj1 (proj2 (proj2 (client_configurations None)))).
  right. reflexivity.
Defined.

(* ===================================================================== *)
(** * The trace of a CrewAI session *)
(* ===================================================================== *)

Section CrewAITrace.

Variable G : option string.
Variable jd : string -> option value.

Local Opaque CrewAI.classifier_prompt CrewAI.therapist_prompt
  CrewAI.logical_prompt CrewAI.input_prompt.

Lemma world_after_nil (w : CrewAI.world) :
  CrewAISession.world_after G jd [] w = w.
Proof.
  destruct w as [s cf rf lg]. unfold CrewAISession.world_after. simpl.
  by rewrite app_nil_r.
Qed.

(** Answered turns after which the session goes on, with the world after
    them written out. *)
Lemma crewai_trace (ts : list turn) (rest : list string) (w : CrewAI.world) :
  Forall CrewAIRun.completes ts ->
  Forall goes_on ts ->
  CrewAI.loop G (CrewAI.documented jd) (map said ts ++ rest) (CrewAIRun.fed ts w)
  = CrewAI.loop G (CrewAI.documented jd) rest (CrewAISession.world_after G jd ts w).
Proof.
  revert w. induction ts as [|t ts IH]; intros w Hc Hg.
  - rewrite world_after_nil. by destruct w.
  - apply Forall_cons in Hc as [Ht Hc]. apply Forall_cons in Hg as [Hgt Hg].
    destruct w as [s cf rf lg].
    set (w1 := {| CrewAI.state := CrewAISession.state_after_turn jd s t;
                  CrewAI.classifier_feed := cf; CrewAI.responder_feed := rf;
                  CrewAI.log :=
                    (((lg ++ [Prompt CrewAI.input_prompt])
                      ++ [Call (CrewAI.classifier_llm G)
                            (CrewAIRun.classifier_request (said t))])
                      ++ [Call (CrewAI.gemini_llm G)
                            (CrewAIRun.responder_request
                               (persona_of (parsed_label jd (verdict t)))
                               (CrewAI.conversation_history s) (said t))])
                      ++ [Print ("Assistant: " +:+ reply t)] |}).
    transitivity (CrewAI.loop G (CrewAI.documented jd) (map said ts ++ rest)
                    (CrewAIRun.fed ts w1)).
    + cbn [map app]. rewrite loop_cons.
      unfold CrewAIRun.prompted, CrewAIRun.fed.
      cbn [CrewAI.state CrewAI.classifier_feed CrewAI.responder_feed
           CrewAI.log verdicts replies map app].
      rewrite (loop_body_run _ _ _ _ _ _ t Ht). cbn zeta.
      apply str_eq_false in Hgt. rewrite Hgt. reflexivity.
    + rewrite (IH w1 Hc Hg). f_equal.
      unfold CrewAISession.world_after, w1.
      cbn [CrewAI.state CrewAI.classifier_feed CrewAI.responder_feed
           CrewAI.log CrewAISession.state_after fold_left
           CrewAISession.session_events CrewAISession.turn_events].
      f_equal. rewrite <- !app_assoc. reflexivity.
Qed.

Lemma state_after_history (s : CrewAI.MessageState) (ts : list turn) :
  CrewAI.conversation_history (CrewAISession.state_after jd s ts)
  = CrewAI.conversation_history s ++ CrewAIRun.transcript ts.
Proof.
  revert s. induction ts as [|t ts IH]; intros s.
  - simpl. by rewrite app_nil_r.
  - unfold CrewAISession.state_after. cbn [fold_left].
    fold (CrewAISession.state_after jd
            (CrewAISession.state_after_turn jd s t) ts).
    rewrite IH. unfold CrewAIRun.transcript.
    change (transcript_with CrewAI.Build_message (t :: ts))
      with (exchange_with CrewAI.Build_message t
              ++ transcript_with CrewAI.Build_message ts).
    rewrite app_assoc. reflexivity.
Qed.

Lemma session_events_app (h : list CrewAI.message) (ts us : list turn) :
  CrewAISession.session_events G jd h (ts ++ us)
  = CrewAISession.session_events G jd h ts
      ++ CrewAISession.session_events G jd
           (h ++ CrewAIRun.transcript ts) us.
Proof.
  revert h. induction ts as [|t ts IH]; intros h.
  - simpl. by rewrite app_nil_r.
  - cbn [app CrewAISession.session_events]. rewrite IH.
    unfold CrewAIRun.transcript.
    change (transcript_with CrewAI.Build_message (t :: ts))
      with (exchange_with CrewAI.Build_message t
              ++ transcript_with CrewAI.Build_message ts).
    rewrite <- !app_assoc. reflexivity.
Qed.

Lemma world_after_app (ts us : list turn) (w : CrewAI.world) :
  CrewAISession.world_after G jd (ts ++ us) w
  = CrewAISession.world_after G jd us (CrewAISession.world_after G jd ts w).
Proof.
  unfold CrewAISession.world_after.
  cbn [CrewAI.state CrewAI.classifier_feed CrewAI.responder_feed CrewAI.log].
  rewrite state_after_history, session_events_app, <- app_assoc.
  unfold CrewAISession.state_after. rewrite fold_left_app. reflexivity.
Qed.

(** One answered turn, whether or not the session goes on after it. *)
Lemma crewai_turn (t : turn) (rest : list string) (w : CrewAI.world) :
  CrewAIRun.completes t ->
  CrewAI.loop G (CrewAI.documented jd) (said t :: rest) (CrewAIRun.fed [t] w)
  = (if reply t == "goodbye"
     then (Ok tt, CrewAISession.world_after G jd [t] w)
     else CrewAI.loop G (CrewAI.documented jd) rest (CrewAISession.world_after G jd [t] w)).
Proof.
  intros Ht. destruct w as [s cf rf lg].
  rewrite loop_cons. unfold CrewAIRun.prompted, CrewAIRun.fed.
  cbn [CrewAI.state CrewAI.classifier_feed CrewAI.responder_feed
       CrewAI.log verdicts replies map app].
  rewrite (loop_body_run _ _ _ _ _ _ t Ht). cbn zeta.
  assert (Hw : forall lg',
            lg' = (((lg ++ [Prompt CrewAI.input_prompt])
                    ++ [Call (CrewAI.classifier_llm G)
                          (CrewAIRun.classifier_request (said t))])
                    ++ [Call (CrewAI.gemini_llm G)
                          (CrewAIRun.responder_request
                             (persona_of (parsed_label jd (verdict t)))
                             (CrewAI.conversation_history s) (said t))])
                    ++ [Print ("Assistant: " +:+ reply t)] ->
            {| CrewAI.state :=
                 CrewAIRun.answered (CrewAIRun.with_user_message s (said t))
                   (parsed_label jd (verdict t)) (reply t);
               CrewAI.classifier_feed := cf; CrewAI.responder_feed := rf;
               CrewAI.log := lg' |}
            = CrewAISession.world_after G jd [t]
                {| CrewAI.state := s; CrewAI.classifier_feed := cf;
                   CrewAI.responder_feed := rf; CrewAI.log := lg |}).
  { intros lg' ->. unfold CrewAISession.world_after.
    cbn [CrewAI.state CrewAI.classifier_feed CrewAI.responder_feed
         CrewAI.log CrewAISession.state_after fold_left
         CrewAISession.session_events CrewAISession.turn_events].
    f_equal. rewrite app_nil_r, <- !app_assoc. reflexivity. }
  rewrite (Hw _ eq_refl). destruct (reply t == "goodbye"); reflexivity.
Qed.

(** The request of the responder in turn [i] carries the pairs of the turns
    before it, after the history the session started from. *)
Lemma session_events_lookup (h : list CrewAI.message) (ts : list turn)
    (i : nat) (t : turn) :
  ts !! i = Some t ->
  CrewAISession.session_events G jd h ts !! (4 * i + 2)
  = Some (Call (CrewAI.gemini_llm G)
            (CrewAIRun.responder_request
               (persona_of (parsed_label jd (verdict t)))
               (h ++ CrewAIRun.transcript (take i ts)) (said t))).
Proof.
  revert h i. induction ts as [|t0 ts IH]; intros h i Hi; [discriminate|].
  destruct i as [|i].
  - injection Hi as ->. cbn. by rewrite app_nil_r.
  - replace (4 * S i + 2) with (4 + (4 * i + 2)) by lia.
    cbn [CrewAISession.session_events CrewAISession.turn_events app
         lookup list_lookup Nat.add].
    rewrite (IH _ i Hi). cbn [take]. unfold CrewAIRun.transcript.
    change (transcript_with CrewAI.Build_message (t0 :: take i ts))
      with (exchange_with CrewAI.Build_message t0
              ++ transcript_with CrewAI.Build_message (take i ts)).
    by rewrite app_assoc.
Qed.

Lemma session_events_calls (h : list CrewAI.message) (ts : list turn) :
  length (requests (CrewAISession.session_events G jd h ts)) = 2 * length ts.
Proof.
  revert h. induction ts as [|t ts IH]; intros h; [reflexivity|].
  cbn [CrewAISession.session_events]. unfold requests in *.
  rewrite List.filter_app, length_app, IH. cbn. lia.
Qed.

End CrewAITrace.

(* ===================================================================== *)
(** * Every run of the CrewAI loop *)
(* ===================================================================== *)

Section CrewAIEveryRun.

Variable G : option string.
Variable jl : string -> outcome value.

Local Opaque CrewAI.classifier_prompt CrewAI.therapist_prompt
  CrewAI.logical_prompt CrewAI.input_prompt.

(** The flow on a non-empty message once the classifier has answered: the
    label is stored and the responder of the label takes over, unless the
    decoder's exception gets through. *)
Lemma kickoff_classified s cf rf lg (result : value) :
  truthy (CrewAI.user_message s) = true ->
  CrewAI.kickoff G jl
    {| CrewAI.state := s; CrewAI.classifier_feed := Ok result :: cf;
       CrewAI.responder_feed := rf; CrewAI.log := lg |}
  = match classified jl result with
    | Ok label =>
        CrewAIRun.respond_result G (persona_of label)
          {| CrewAI.state := CrewAIRun.with_message_type s label;
             CrewAI.classifier_feed := cf; CrewAI.responder_feed := rf;
             CrewAI.log :=
               lg ++ [Call (CrewAI.classifier_llm G)
                        (CrewAIRun.classifier_request
                           (CrewAI.user_message s))] |}
    | Raise e =>
        (Raise e,
         {| CrewAI.state := s;
            CrewAI.classifier_feed := cf; CrewAI.responder_feed := rf;
            CrewAI.log :=
              lg ++ [Call (CrewAI.classifier_llm G)
                       (CrewAIRun.classifier_request
                          (CrewAI.user_message s))] |})
    end.
Proof.
  intros Ht. unfold CrewAI.kickoff, bind.
  rewrite classify_any by exact Ht.
  destruct (classified jl result) as [label|e] eqn:E; [|reflexivity].
  destruct (classified_label jl result label E) as [-> | ->].
  - rewrite <- therapist_run. reflexivity.
  - rewrite <- logical_run. reflexivity.
Qed.

(** The flow when the classifier's call fails, or the script has run out. *)
Lemma kickoff_classifier_fails s cf rf lg :
  truthy (CrewAI.user_message s) = true ->
  match cf with Ok _ :: _ => False | _ => True end ->
  CrewAI.kickoff G jl
    {| CrewAI.state := s; CrewAI.classifier_feed := cf;
       CrewAI.responder_feed := rf; CrewAI.log := lg |}
  = (Raise (match cf with Raise e :: _ => e | _ => EndpointError end),
     {| CrewAI.state := s; CrewAI.classifier_feed := tail cf;
        CrewAI.responder_feed := rf;
        CrewAI.log :=
          lg ++ [Call (CrewAI.classifier_llm G)
                   (CrewAIRun.classifier_request (CrewAI.user_message s))]
     |}).
Proof.
  intros Ht Hcf. unfold CrewAI.kickoff, CrewAI.classify_message, bind,
    CrewAI.get_state.
  cbn [CrewAI.state]. rewrite Ht.
  destruct cf as [|[result|e] cf]; [reflexivity | destruct Hcf | reflexivity].
Qed.

Lemma raised_by_suffix {A} (l1 l2 : list (outcome A)) (e : exn) :
  l1 `suffix_of` l2 -> raised_by l1 e -> raised_by l2 e.
Proof.
  intros [k ->] H. unfold raised_by in *. apply in_or_app. by right.
Qed.

Lemma escapes_suffix (l1 l2 : list (outcome value)) (e : exn) :
  l1 `suffix_of` l2 -> escapes jl l1 e -> escapes jl l2 e.
Proof.
  intros [k ->] (text & Hin & H). exists text. split; [|exact H].
  apply in_or_app. by right.
Qed.

(** What one pass of the loop body may do, whatever the input, whatever the
    endpoint answers and whatever the decoder does. *)
Lemma crewai_body_post (u : string) (w : CrewAI.world) o w' :
  CrewAI.loop_body G jl u w = (o, w') ->
  (CrewAI.message_type (CrewAI.state w')
     = CrewAI.message_type (CrewAI.state w)
   \/ CrewAI.message_type (CrewAI.state w') = "emotional"
   \/ CrewAI.message_type (CrewAI.state w') = "logical")
  /\ (CrewAI.conversation_history (CrewAI.state w')
        = CrewAI.conversation_history (CrewAI.state w)
      \/ exists t,
           CrewAI.conversation_history (CrewAI.state w')
           = CrewAI.conversation_history (CrewAI.state w)
               ++ CrewAIRun.transcript [t])
  /\ (forall e, o = Raise e ->
        e = EndpointError
        \/ raised_by (CrewAI.classifier_feed w) e
        \/ raised_by (CrewAI.responder_feed w) e
        \/ escapes jl (CrewAI.classifier_feed w) e)
  /\ CrewAI.classifier_feed w' `suffix_of` CrewAI.classifier_feed w
  /\ CrewAI.responder_feed w' `suffix_of` CrewAI.responder_feed w.
Proof.
  destruct w as [s cf rf lg]. unfold CrewAI.loop_body.
  destruct (CrewAI.is_exit u).
  { intros [= <- <-]. cbn. repeat split; try tauto; try reflexivity.
    discriminate. }
  unfold bind at 1.
  cbn [CrewAI.set_user_message bind CrewAI.get_state CrewAI.put_state
       CrewAI.state CrewAI.classifier_feed CrewAI.responder_feed CrewAI.log].
  unfold bind at 1.
  destruct u as [|c u'].
  { intros [= <- <-]. cbn. repeat split; try tauto; try reflexivity.
    discriminate. }
  set (u := String c u').
  assert (Ht : truthy u = true) by reflexivity.
  destruct cf as [|[result|e] cf].
  - rewrite kickoff_classifier_fails by (exact Ht || exact I).
    intros [= <- <-].
    cbn. repeat split; try tauto; try reflexivity.
    intros e [= <-]. by left.
  - rewrite kickoff_classified by exact Ht.
    destruct (classified jl result) as [label|e] eqn:Ecl.
    + assert (Hl := classified_label jl result label Ecl).
      unfold CrewAIRun.respond_result.
      destruct rf as [|[r|e] rf];
        cbn [fst snd bind ret CrewAI.get_state CrewAI.state
             CrewAI.classifier_feed CrewAI.responder_feed CrewAI.log
             CrewAI.message_type CrewAI.conversation_history
             CrewAI.user_message CrewAIRun.answered
             CrewAIRun.with_message_type];
        intros [= <- <-];
        cbn [fst snd CrewAI.state
             CrewAI.classifier_feed CrewAI.responder_feed CrewAI.log
             CrewAI.message_type CrewAI.conversation_history
             CrewAI.user_message CrewAIRun.answered
             CrewAIRun.with_message_type].
      * repeat split; try tauto; try reflexivity.
        -- intros e [= <-]. by left.
        -- by apply suffix_cons_r.
      * repeat split; try tauto; try reflexivity.
        -- right. by exists {| said := u; verdict := result; reply := r |}.
        -- discriminate.
        -- by apply suffix_cons_r.
        -- by apply suffix_cons_r.
      * repeat split; try tauto; try reflexivity.
        -- intros e' [= <-]. right. right. left. by left.
        -- by apply suffix_cons_r.
        -- by apply suffix_cons_r.
    + intros [= <- <-].
      cbn [CrewAI.state CrewAI.classifier_feed CrewAI.responder_feed
           CrewAI.message_type CrewAI.conversation_history].
      repeat split; try tauto; try reflexivity.
      * intros e' [= <-]. right. right. right.
        apply classified_raises in Ecl as (text & -> & Hjl & Hc).
        exists text. split; [by left | by split].
      * by apply suffix_cons_r.
  - rewrite kickoff_classifier_fails by (exact Ht || exact I).
    intros [= <- <-].
    cbn. repeat split; try tauto; try reflexivity.
    + intros e' [= <-]. right. left. by left.
    + by apply suffix_cons_r.
Qed.

(** The same over the whole loop, by induction on the console. *)
Lemma crewai_loop_post (console : list string) (w : CrewAI.world) o w' :
  CrewAI.loop G jl console w = (o, w') ->
  (CrewAI.message_type (CrewAI.state w')
     = CrewAI.message_type (CrewAI.state w)
   \/ CrewAI.message_type (CrewAI.state w') = "emotional"
   \/ CrewAI.message_type (CrewAI.state w') = "logical")
  /\ (exists ts,
        CrewAI.conversation_history (CrewAI.state w')
        = CrewAI.conversation_history (CrewAI.state w)
            ++ CrewAIRun.transcript ts)
  /\ (forall e, o = Raise e ->
        e = EOFError \/ e = EndpointError
        \/ raised_by (CrewAI.classifier_feed w) e
        \/ raised_by (CrewAI.responder_feed w) e
        \/ escapes jl (CrewAI.classifier_feed w) e)
  /\ CrewAI.classifier_feed w' `suffix_of` CrewAI.classifier_feed w
  /\ CrewAI.responder_feed w' `suffix_of` CrewAI.responder_feed w.
Proof.
  revert w. induction console as [|u rest IH]; intros w.
  - cbn. intros [= <- <-]. cbn. split; [by left|].
    split; [exists []; by rewrite app_nil_r|].
    split; [intros e [= <-]; by left|]. split; reflexivity.
  - rewrite loop_cons_any.
    destruct (CrewAI.loop_body G jl u (CrewAIRun.prompted w))
      as [[[|]|e] w1] eqn:E;
      apply crewai_body_post in E as (Hm & Hh & He & Hcf & Hrf);
      cbn [CrewAIRun.prompted CrewAI.state CrewAI.classifier_feed
           CrewAI.responder_feed] in Hm, Hh, He, Hcf, Hrf.
    + intros [= <- <-]. split; [exact Hm|]. split.
      * destruct Hh as [-> | [t ->]]; [exists [] | exists [t]];
          [by rewrite app_nil_r | reflexivity].
      * split; [discriminate|]. by split.
    + intros H. apply IH in H as (Hm' & [ts Hh'] & He' & Hcf' & Hrf').
      split; [|split; [|split; [|split]]].
      * destruct Hm' as [-> | Hm']; [exact Hm | tauto].
      * rewrite Hh'. destruct Hh as [-> | [t ->]]; [by exists ts|].
        exists (t :: ts). rewrite <- app_assoc. reflexivity.
      * intros e Heq. destruct (He' e Heq) as [? | [? | [? | [? | ?]]]];
          [tauto | tauto | | |].
        -- right. right. left. by apply (raised_by_suffix _ _ _ Hcf).
        -- right. right. right. left. by apply (raised_by_suffix _ _ _ Hrf).
        -- right. right. right. right. by apply (escapes_suffix _ _ _ Hcf).
      * by etransitivity.
      * by etransitivity.
    + intros [= <- <-]. split; [exact Hm|]. split.
      * destruct Hh as [-> | [t ->]]; [exists [] | exists [t]];
          [by rewrite app_nil_r | reflexivity].
      * split; [|by split].
        intros e' [= <-]. right. by apply He.
Qed.

(** Under a decoder that keeps to the documented contract nothing gets
    through the [except] clause. *)
Lemma documented_never_escapes (jd : string -> option value)
    (feed : list (outcome value)) (e : exn) :
  ~ escapes (CrewAI.documented jd) feed e.
Proof.
  intros (text & _ & Hjl & Hc). unfold CrewAI.documented in Hjl.
  destruct (jd text); [discriminate|]. injection Hjl as <-. discriminate Hc.
Qed.

End CrewAIEveryRun.

(** The CrewAI session, turn by turn.  Over any list of answered turns
    after each of which the session goes on, the loop reaches the next
    prompt having written, per turn and in this order, its prompt, the
    classifier's request, the request of the responder that the label
    selects and the printed reply, and nothing else.  So there are exactly
    two requests per turn; the responder's request in turn i carries the
    pairs of turns 0..i-1 in order between the persona and the new message;
    and the state holds the last message typed, its label and its reply.
    The decoder is one that keeps to the documented contract of
    [json.loads]. *)
Theorem crewai_session_trace (G : option string)
    (jd : string -> option value) (ts : list turn) (rest : list string)
    (cs : list (outcome value)) (rs : list (outcome string)) :
  Forall CrewAIRun.completes ts ->
  Forall goes_on ts ->
  let w' := CrewAISession.world_after G jd ts (CrewAI.fresh cs rs) in
  CrewAI.run_chatbot G (CrewAI.documented jd) (map said ts ++ rest)
    (verdicts ts ++ cs) (replies ts ++ rs)
  = CrewAI.loop G (CrewAI.documented jd) rest w'
  /\ CrewAI.log w' = CrewAISession.session_events G jd [] ts
  /\ length (requests (CrewAI.log w')) = 2 * length ts
  /\ (forall i t,
        ts !! i = Some t ->
        CrewAI.log w' !! (4 * i + 2)
        = Some (Call (CrewAI.gemini_llm G)
                  (CrewAIRun.responder_request
                     (persona_of (parsed_label jd (verdict t)))
                     (CrewAIRun.transcript (take i ts)) (said t))))
  /\ (forall t,
        last ts = Some t ->
        CrewAI.user_message (CrewAI.state w') = said t
        /\ CrewAI.message_type (CrewAI.state w')
           = parsed_label jd (verdict t)
        /\ CrewAI.response (CrewAI.state w') = reply t)
  /\ CrewAI.classifier_feed w' = cs
  /\ CrewAI.responder_feed w' = rs.
Proof.
  intros Hc Hg w'. split; [|split; [|split; [|split; [|split]]]].
  - unfold CrewAI.run_chatbot.
    change (CrewAI.fresh (verdicts ts ++ cs) (replies ts ++ rs))
      with (CrewAIRun.fed ts (CrewAI.fresh cs rs)).
    by apply crewai_trace.
  - reflexivity.
  - apply session_events_calls.
  - intros i t Hi. exact (session_events_lookup G jd [] ts i t Hi).
  - intros t Hlast. apply last_Some in Hlast as [ts0 ->].
    unfold w', CrewAISession.world_after.
    cbn [CrewAI.state]. unfold CrewAISession.state_after.
    rewrite fold_left_app. cbn. tauto.
  - split; reflexivity.
Qed.

Lemma crewai_session_trace_witness :
  Forall CrewAIRun.completes sample_turns
  /\ Forall goes_on sample_turns
  /\ CrewAI.run_chatbot None (CrewAI.documented sample_json_decode)
       (map said sample_turns ++ ["exit"])
       (verdicts sample_turns ++ []) (replies sample_turns ++ [])
     = CrewAI.loop None (CrewAI.documented sample_json_decode) ["exit"]
         (CrewAISession.world_after None sample_json_decode sample_turns
            (CrewAI.fresh [] [])).
Proof.
  assert (Hc : Forall CrewAIRun.completes sample_turns).
  { repeat constructor; discriminate. }
  assert (Hg : Forall goes_on sample_turns).
  { repeat constructor; discriminate. }
  split; [exact Hc|]. split; [exact Hg|].
  exact (proj1 (crewai_session_trace None sample_json_decode sample_turns
                  ["exit"] [] [] Hc Hg)).
Defined.

(** A reply that is the word goodbye ends the CrewAI session.  When the
    responder's reply to an answered turn is exactly goodbye, the loop takes
    it for the result of the exit listener and breaks: the reply is printed
    last, no farewell follows, and the lines left on the console are never
    read.  The decoder is one that keeps to the documented contract of
    [json.loads]. *)
Theorem crewai_goodbye_reply_ends_session (G : option string)
    (jd : string -> option value) (ts : list turn) (t : turn)
    (rest : list string) (cs : list (outcome value))
    (rs : list (outcome string)) :
  Forall CrewAIRun.completes ts ->
  Forall goes_on ts ->
  CrewAIRun.completes t ->
  reply t = "goodbye" ->
  let w' := CrewAISession.world_after G jd (ts ++ [t]) (CrewAI.fresh cs rs) in
  CrewAI.run_chatbot G (CrewAI.documented jd) (map said ts ++ said t :: rest)
    (verdicts (ts ++ [t]) ++ cs) (replies (ts ++ [t]) ++ rs)
  = (Ok tt, w')
  /\ last (CrewAI.log w') = Some (Print "Assistant: goodbye")
  /\ CrewAI.conversation_history (CrewAI.state w')
     = CrewAIRun.transcript (ts ++ [t]).
Proof.
  intros Hc Hg Ht Hbye w'. split; [|split].
  - unfold CrewAI.run_chatbot.
    change (CrewAI.fresh (verdicts (ts ++ [t]) ++ cs)
              (replies (ts ++ [t]) ++ rs))
      with (CrewAIRun.fed (ts ++ [t]) (CrewAI.fresh cs rs)).
    rewrite fed_app, (crewai_trace G jd ts _ _ Hc Hg).
    change (CrewAISession.world_after G jd ts
              (CrewAIRun.fed [t] (CrewAI.fresh cs rs)))
      with (CrewAIRun.fed [t]
              (CrewAISession.world_after G jd ts (CrewAI.fresh cs rs))).
    rewrite (crewai_turn G jd t rest _ Ht).
    assert ((reply t == "goodbye") = true) as ->
      by (by apply str_eq_true).
    unfold w'. by rewrite world_after_app.
  - unfold w', CrewAISession.world_after. cbn [CrewAI.log CrewAI.fresh app].
    rewrite session_events_app.
    cbn [CrewAISession.session_events].
    unfold CrewAISession.turn_events. rewrite Hbye, app_nil_r.
    match goal with
    | |- last (?l ++ [?a; ?b; ?c; ?d]) = _ =>
        change (l ++ [a; b; c; d]) with (l ++ [a; b; c] ++ [d])
    end.
    rewrite app_assoc. apply last_snoc.
  - unfold w', CrewAISession.world_after. cbn [CrewAI.state].
    exact (state_after_history jd _ (ts ++ [t])).
Qed.

Lemma crewai_goodbye_reply_ends_session_witness :
  CrewAI.run_chatbot None (CrewAI.documented sample_json_decode)
    ([] ++ "I have to go now" :: ["Are you still there?"])
    (verdicts ([] ++ [ {| said := "I have to go now";
                          verdict := VStr "not an object";
                          reply := "goodbye" |} ]) ++ [])
    (replies ([] ++ [ {| said := "I have to go now";
                         verdict := VStr "not an object";
                         reply := "goodbye" |} ]) ++ [])
  = (Ok tt,
     CrewAISession.world_after None sample_json_decode
       ([] ++ [ {| said := "I have to go now";
                   verdict := VStr "not an object";
                   reply := "goodbye" |} ])
       (CrewAI.fresh [] [])).
Proof.
  refine (proj1 (crewai_goodbye_reply_ends_session None sample_json_decode
                   [] {| said := "I have to go now";
                         verdict := VStr "not an object";
                         reply := "goodbye" |}
                   ["Are you still there?"] [] [] _ _ _ _)).
  - constructor.
  - constructor.
  - split; [reflexivity | discriminate].
  - reflexivity.
Defined.

(** The end of the console.  When the console of the CrewAI loop runs out
    after answered turns (no sentinel, no empty line), [input] raises
    [EOFError] and the script does not catch it: the run ends in that
    exception, after one more prompt (the decoder keeping to the documented
    contract of [json.loads]).  The LangGraph loop reaches the end of
    its console only when the console is empty from the start: its run ends
    in [EOFError] then, after the one prompt, and in no other case. *)
Theorem console_end_raises_eof (ts : list turn) :
  (forall G jd cs rs,
     Forall CrewAIRun.completes ts ->
     Forall goes_on ts ->
     CrewAI.run_chatbot G (CrewAI.documented jd) (map said ts) (verdicts ts ++ cs)
       (replies ts ++ rs)
     = (Raise EOFError,
        CrewAIRun.prompted
          (CrewAISession.world_after G jd ts (CrewAI.fresh cs rs))))
  /\ (forall cs rs,
        LangGraph.run_chatbot [] cs rs
        = (Raise EOFError,
           {| LangGraph.classifier_feed := cs;
              LangGraph.responder_feed := rs;
              LangGraph.log := [Prompt LangGraph.input_prompt] |}))
  /\ (forall console cs rs,
        fst (LangGraph.run_chatbot console cs rs) = Raise EOFError ->
        console = []).
Proof.
  split; [|split].
  - intros G jd cs rs Hc Hg. unfold CrewAI.run_chatbot.
    change (CrewAI.fresh (verdicts ts ++ cs) (replies ts ++ rs))
      with (CrewAIRun.fed ts (CrewAI.fresh cs rs)).
    rewrite <- (app_nil_r (map said ts)).
    rewrite (crewai_trace G jd ts [] _ Hc Hg). reflexivity.
  - reflexivity.
  - intros console cs rs. unfold LangGraph.run_chatbot.
    rewrite lg_loop_cases. destruct console as [|u rest]; [reflexivity|].
    destruct (LangGraph.is_exit u); discriminate.
Qed.

Lemma console_end_raises_eof_witness :
  fst (CrewAI.run_chatbot None (CrewAI.documented sample_json_decode) (map said sample_turns)
         (verdicts sample_turns ++ []) (replies sample_turns ++ []))
  = Raise EOFError
  /\ fst (LangGraph.run_chatbot [] [] []) = Raise EOFError
  /\ @nil string = [].
Proof.
  split; [|split].
  - rewrite (proj1 (console_end_raises_eof sample_turns)
               None sample_json_decode [] []);
      [reflexivity | repeat constructor; discriminate
       | repeat constructor; discriminate].
  - reflexivity.
  - exact (proj2 (proj2 (console_end_raises_eof [])) [] [] [] eq_refl).
Defined.

(** The CrewAI history never holds half a turn.  Whatever is typed and
    whatever the endpoint does (answers, failures, a script that runs out),
    the history at the end of the run is a sequence of whole turns: user
    entry, assistant entry, and so on.  A turn whose call fails leaves no
    entry behind. *)
Theorem crewai_history_is_whole_turns (G : option string)
    (jl : string -> outcome value) (console : list string)
    (cs : list (outcome value)) (rs : list (outcome string)) :
  exists ts,
    CrewAI.conversation_history
      (CrewAI.state (snd (CrewAI.run_chatbot G jl console cs rs)))
    = CrewAIRun.transcript ts
    /\ length (CrewAI.conversation_history
                 (CrewAI.state (snd (CrewAI.run_chatbot G jl console cs rs))))
       = 2 * length ts.
Proof.
  unfold CrewAI.run_chatbot.
  destruct (CrewAI.loop G jl console (CrewAI.fresh cs rs)) as [o w'] eqn:E.
  apply crewai_loop_post in E as (_ & [ts Hh] & _).
  exists ts. cbn [snd]. rewrite Hh. cbn [CrewAI.fresh CrewAI.state
    CrewAI.MessageState_default CrewAI.conversation_history app].
  split; [reflexivity|]. apply transcript_with_length.
Qed.

(** The stored label is never the exit signal.  In every run the
    [message_type] of the flow's state is the default, emotional or logical:
    each pass of the loop body keeps it so, whatever the input and the
    endpoint.  So the test [flow.state.message_type == "exit"] of the loop
    is false every time it is made, and the loop breaks after a flow run on
    the result goodbye alone. *)
Theorem crewai_stored_label_never_exit (G : option string)
    (jl : string -> outcome value) :
  (forall u w o w',
     CrewAISession.stored_label (CrewAI.message_type (CrewAI.state w)) ->
     CrewAI.loop_body G jl u w = (o, w') ->
     CrewAISession.stored_label (CrewAI.message_type (CrewAI.state w'))
     /\ (CrewAI.message_type (CrewAI.state w') == "exit") = false)
  /\ (forall console cs rs,
        CrewAISession.stored_label
          (CrewAI.message_type
             (CrewAI.state (snd (CrewAI.run_chatbot G jl console cs rs))))).
Proof.
  assert (Hne : forall v, CrewAISession.stored_label v ->
                          (v == "exit") = false).
  { intros v [-> | [-> | ->]]; reflexivity. }
  split.
  - intros u w o w' Hw E.
    apply crewai_body_post in E as (Hm & _).
    assert (CrewAISession.stored_label
              (CrewAI.message_type (CrewAI.state w'))) as Hs.
    { unfold CrewAISession.stored_label in *.
      destruct Hm as [-> | [-> | ->]]; tauto. }
    split; [exact Hs | by apply Hne].
  - intros console cs rs. unfold CrewAI.run_chatbot.
    destruct (CrewAI.loop G jl console (CrewAI.fresh cs rs)) as [o w'] eqn:E.
    apply crewai_loop_post in E as (Hm & _). cbn [snd].
    unfold CrewAISession.stored_label.
    cbn [CrewAI.fresh CrewAI.state CrewAI.MessageState_default
         CrewAI.message_type] in Hm. tauto.
Qed.

Lemma crewai_stored_label_never_exit_witness :
  CrewAISession.stored_label
    (CrewAI.message_type
       (CrewAI.state
          (CrewAI.fresh [Ok (VStr (label_json "emotional"))]
             [Ok "Take care."])))
  /\ (CrewAI.message_type
        (CrewAI.state
           (snd (CrewAI.loop_body None (CrewAI.documented sample_json_decode) "exit please"
                   (CrewAI.fresh [Ok (VStr (label_json "emotional"))]
                      [Ok "Take care."]))))
      == "exit") = false.
Proof.
  assert (H0 : CrewAISession.stored_label
                 (CrewAI.message_type
                    (CrewAI.state
                       (CrewAI.fresh [Ok (VStr (label_json "emotional"))]
                          [Ok "Take care."]))))
    by (by left).
  split; [exact H0|].
  destruct (CrewAI.loop_body None (CrewAI.documented sample_json_decode) "exit please"
              (CrewAI.fresh [Ok (VStr (label_json "emotional"))]
                 [Ok "Take care."])) as [o w'] eqn:E.
  exact (proj2 (proj1 (crewai_stored_label_never_exit None
                         (CrewAI.documented sample_json_decode))
                  _ _ _ _ H0 E)).
Defined.

(** The exceptions that leave the CrewAI loop, under any decoder.  A run
    ends in an exception only at the end of the console ([EOFError]), when
    the endpoint's script has run out, with an exception that a call to the
    endpoint raised, or with an exception that [json.loads] raised on a text
    the classifier answered and that the [except] clause of the classifier
    step does not name (in Python, [ValueError] for an integer beyond the
    digit limit and [RecursionError] for nesting that is too deep).  Under a
    decoder that raises nothing but [JSONDecodeError] the last case does not
    arise.  What validation raises never leaves the loop. *)
Theorem crewai_run_exceptions (G : option string)
    (jl : string -> outcome value) (console : list string)
    (cs : list (outcome value)) (rs : list (outcome string)) (e : exn) :
  fst (CrewAI.run_chatbot G jl console cs rs) = Raise e ->
  (e = EOFError \/ e = EndpointError \/ raised_by cs e \/ raised_by rs e
   \/ escapes jl cs e)
  /\ (forall jd,
        jl = CrewAI.documented jd ->
        e = EOFError \/ e = EndpointError \/ raised_by cs e
        \/ raised_by rs e).
Proof.
  unfold CrewAI.run_chatbot.
  destruct (CrewAI.loop G jl console (CrewAI.fresh cs rs)) as [o w'] eqn:E.
  apply crewai_loop_post in E as (_ & _ & He & _).
  cbn [fst CrewAI.fresh CrewAI.classifier_feed CrewAI.responder_feed] in *.
  intros Ho. specialize (He e Ho). split; [exact He|].
  intros jd ->. destruct He as [? | [? | [? | [? | Hesc]]]]; try tauto.
  by destruct (documented_never_escapes jd cs e).
Qed.

Lemma crewai_run_exceptions_witness :
  (fst (CrewAI.run_chatbot None (CrewAI.documented sample_json_decode)
          ["hello"; "exit"] [Ok (VStr "{broken")] [Raise KeyError])
   = Raise KeyError
   /\ (KeyError = EOFError \/ KeyError = EndpointError
       \/ @raised_by value [Ok (VStr "{broken")] KeyError
       \/ @raised_by string [Raise KeyError] KeyError))
  /\ (fst (CrewAI.run_chatbot None sample_json_loads
             ["How many stars are there?"; "exit"]
             [Ok (VStr (digits 4301))] [Ok "Many."])
      = Raise ValueError
      /\ (ValueError = EOFError \/ ValueError = EndpointError
          \/ @raised_by value [Ok (VStr (digits 4301))] ValueError
          \/ @raised_by string [Ok "Many."] ValueError
          \/ escapes sample_json_loads [Ok (VStr (digits 4301))]
               ValueError)).
Proof.
  assert (H : fst (CrewAI.run_chatbot None
                     (CrewAI.documented sample_json_decode)
                     ["hello"; "exit"] [Ok (VStr "{broken")] [Raise KeyError])
              = Raise KeyError) by reflexivity.
  assert (H' : fst (CrewAI.run_chatbot None sample_json_loads
                      ["How many stars are there?"; "exit"]
                      [Ok (VStr (digits 4301))] [Ok "Many."])
               = Raise ValueError) by (vm_compute; reflexivity).
  split; (split; [assumption|]).
  - exact (proj2 (crewai_run_exceptions None _ _ _ _ _ H)
             sample_json_decode eq_refl).
  - exact (proj1 (crewai_run_exceptions None _ _ _ _ _ H')).
Defined.

(** A failing call in the middle of a CrewAI turn.  For an input that is
    neither the sentinel nor empty: when the classifier's call raises, the
    exception leaves the loop at once, the responder is not asked, and only
    the message typed has been stored; when the classifier answers and the
    responder's call raises, the exception leaves the loop with the label
    stored, the history as it was and nothing printed.  The decoder is one
    that keeps to the documented contract of [json.loads]. *)
Theorem crewai_failed_turn (G : option string) (jd : string -> option value)
    (u : string) (rest : list string) (s : CrewAI.MessageState)
    (cf : list (outcome value)) (rf : list (outcome string))
    (lg : list (event CrewAI.LLM CrewAI.message)) (e : exn) :
  CrewAI.is_exit u = false ->
  u <> "" ->
  CrewAI.loop G (CrewAI.documented jd) (u :: rest)
    {| CrewAI.state := s; CrewAI.classifier_feed := Raise e :: cf;
       CrewAI.responder_feed := rf; CrewAI.log := lg |}
  = (Raise e,
     {| CrewAI.state := CrewAIRun.with_user_message s u;
        CrewAI.classifier_feed := cf; CrewAI.responder_feed := rf;
        CrewAI.log :=
          (lg ++ [Prompt CrewAI.input_prompt])
            ++ [Call (CrewAI.classifier_llm G)
                  (CrewAIRun.classifier_request u)] |})
  /\ forall result,
       CrewAI.loop G (CrewAI.documented jd) (u :: rest)
         {| CrewAI.state := s; CrewAI.classifier_feed := Ok result :: cf;
            CrewAI.responder_feed := Raise e :: rf; CrewAI.log := lg |}
       = (Raise e,
          {| CrewAI.state :=
               CrewAIRun.with_message_type (CrewAIRun.with_user_message s u)
                 (parsed_label jd result);
             CrewAI.classifier_feed := cf; CrewAI.responder_feed := rf;
             CrewAI.log :=
               ((lg ++ [Prompt CrewAI.input_prompt])
                  ++ [Call (CrewAI.classifier_llm G)
                        (CrewAIRun.classifier_request u)])
                 ++ [Call (CrewAI.gemini_llm G)
                       (CrewAIRun.responder_request
                          (persona_of (parsed_label jd result))
                          (CrewAI.conversation_history s) u)] |}).
Proof.
  intros Hexit Hne. apply truthy_iff in Hne.
  split; [|intros result]; rewrite loop_cons; unfold CrewAI.loop_body;
    rewrite Hexit; unfold bind at 1;
    cbn [CrewAI.set_user_message bind CrewAI.get_state CrewAI.put_state
         CrewAIRun.prompted CrewAI.state CrewAI.classifier_feed
         CrewAI.responder_feed CrewAI.log];
    unfold bind at 1.
  - rewrite kickoff_classifier_fails by (exact Hne || exact I). reflexivity.
  - rewrite kickoff_classified by exact Hne.
    rewrite classified_documented. reflexivity.
Qed.

Lemma crewai_failed_turn_witness :
  fst (CrewAI.loop None (CrewAI.documented sample_json_decode) ["Why is the sky blue?"]
         {| CrewAI.state := CrewAI.MessageState_default;
            CrewAI.classifier_feed := [Raise EndpointError];
            CrewAI.responder_feed := []; CrewAI.log := [] |})
  = Raise EndpointError.
Proof.
  rewrite (proj1 (crewai_failed_turn None sample_json_decode
                    "Why is the sky blue?" [] CrewAI.MessageState_default
                    [] [] [] EndpointError eq_refl
                    ltac:(discriminate))).
  reflexivity.
Defined.

(* ===================================================================== *)
(** * Every run of the LangGraph loop *)
(* ===================================================================== *)

(** Every run of the LangGraph loop, in full.  The run is decided by the
    first line of the console.  With no line, [input] raises [EOFError]
    after the prompt.  With the sentinel, the loop writes the prompt and the
    farewell and returns the state it started from, with no message.  With
    any other line the classifier node raises [ValidationError] while its
    request is being built, and the exception leaves the graph and the loop
    with only the prompt written.  In each case the scripts of answers are
    untouched and the log holds no request: the program never calls the
    endpoint, and no line after the first is read. *)
Theorem langgraph_session_trace (console : list string)
    (cs : list (outcome value)) (rs : list (outcome string)) :
  LangGraph.run_chatbot console cs rs
  = (match console with
     | [] => Raise EOFError
     | u :: _ =>
         if LangGraph.is_exit u then Ok LangGraph.initial_state
         else Raise ValidationError
     end,
     {| LangGraph.classifier_feed := cs;
        LangGraph.responder_feed := rs;
        LangGraph.log :=
          Prompt LangGraph.input_prompt
            :: match console with
               | [] => []
               | u :: _ => if LangGraph.is_exit u then [Print "Bye"] else []
               end |})
  /\ requests (LangGraph.log (snd (LangGraph.run_chatbot console cs rs)))
     = [].
Proof.
  unfold LangGraph.run_chatbot. rewrite lg_loop_cases.
  destruct console as [|u rest]; [by split|].
  destruct (LangGraph.is_exit u); by split.
Qed.

(** The exceptions that leave the LangGraph loop.  A run ends in an
    exception in two cases only: [EOFError] when the console is empty, and
    [ValidationError] when its first line is not the sentinel.  The answers
    scripted for the endpoint play no part. *)
Theorem langgraph_run_exceptions (console : list string)
    (cs : list (outcome value)) (rs : list (outcome string)) (e : exn) :
  fst (LangGraph.run_chatbot console cs rs) = Raise e ->
  (e = EOFError /\ console = [])
  \/ (e = ValidationError
      /\ exists u rest, console = u :: rest /\ LangGraph.is_exit u = false).
Proof.
  unfold LangGraph.run_chatbot. rewrite lg_loop_cases.
  destruct console as [|u rest].
  - intros [= <-]. by left.
  - destruct (LangGraph.is_exit u) eqn:E; [discriminate|].
    intros [= <-]. right. split; [reflexivity|]. by exists u, rest.
Qed.

Lemma langgraph_run_exceptions_witness :
  fst (LangGraph.run_chatbot ["hello"; "exit"]
         [Ok (VDict (label_dict "logical"))] [Ok "Hello."])
  = Raise ValidationError
  /\ ((ValidationError = EOFError /\ ["hello"; "exit"] = [])
      \/ (ValidationError = ValidationError
          /\ exists u rest,
               ["hello"; "exit"] = u :: rest
               /\ LangGraph.is_exit u = false)).
Proof.
  assert (H : fst (LangGraph.run_chatbot ["hello"; "exit"]
                     [Ok (VDict (label_dict "logical"))] [Ok "Hello."])
              = Raise ValidationError) by reflexivity.
  split; [exact H|].
  exact (langgraph_run_exceptions _ _ _ _ H).
Defined.

(** A LangGraph run that returns.  The loop returns only through the
    sentinel, and only when the sentinel is the first line: whenever a run
    ends without an exception, the state returned is the one the loop
    started from, with no message, and the prompt and the farewell are all
    that was written. *)
Theorem langgraph_normal_end (console : list string)
    (cs : list (outcome value)) (rs : list (outcome string))
    (st : LangGraph.State) (w : LangGraph.world) :
  LangGraph.run_chatbot console cs rs = (Ok st, w) ->
  (exists u rest, console = u :: rest /\ LangGraph.is_exit u = true)
  /\ st = LangGraph.initial_state
  /\ LangGraph.messages st = []
  /\ LangGraph.log w = [Prompt LangGraph.input_prompt; Print "Bye"]
  /\ LangGraph.classifier_feed w = cs
  /\ LangGraph.responder_feed w = rs.
Proof.
  unfold LangGraph.run_chatbot. rewrite lg_loop_cases.
  destruct console as [|u rest]; [discriminate|].
  destruct (LangGraph.is_exit u) eqn:E; [|discriminate].
  intros [= <- <-]. split; [by exists u, rest|]. by repeat split.
Qed.

Lemma langgraph_normal_end_witness :
  LangGraph.log
    (snd (LangGraph.run_chatbot [" EXIT"; "How are you?"]
            [Ok (VDict (label_dict "emotional"))] [Ok "Fine."]))
  = [Prompt LangGraph.input_prompt; Print "Bye"].
Proof.
  exact (proj1 (proj2 (proj2 (proj2
           (langgraph_normal_end [" EXIT"; "How are you?"]
              [Ok (VDict (label_dict "emotional"))] [Ok "Fine."]
              _ _ eq_refl))))).
Defined.

(* ===================================================================== *)
(** * The inputs that end a session *)
(* ===================================================================== *)












Lemma lstrip_all_space (u : string) : all_space u = true -> lstrip u = "".
Proof.
  induction u as [|c u IH]; [reflexivity|]. simpl.
  intros H. apply andb_true_iff in H as [Hc Hu]. rewrite Hc. by apply IH.
Qed.

Lemma blank_is_not_exit (u : string) :
  all_space u = true ->
  CrewAI.is_exit u = false /\ LangGraph.is_exit u = false.
Proof.
  intros H. unfold CrewAI.is_exit, LangGraph.is_exit.
  rewrite strip_lower. unfold strip. rewrite lstrip_all_space by exact H.
  split; reflexivity.
Qed.

(** A blank line is a message.  A line of whitespace only, if it is not
    empty, is neither the sentinel nor the empty message.  The CrewAI flow
    sends it to the classifier and answers it like any other turn (the
    decoder keeping to the documented contract of [json.loads]); only the
    truly empty line makes that flow exit.  The LangGraph loop does not take
    it for the sentinel either: it writes no farewell and hands the line to
    the graph, where the run ends as it does for every line that is not the
    sentinel, with the [ValidationError] of the classifier node. *)
Theorem blank_line_is_a_turn (t : turn) :
  all_space (said t) = true ->
  said t <> "" ->
  (forall G jd rest w,
     CrewAI.loop G (CrewAI.documented jd) (said t :: rest) (CrewAIRun.fed [t] w)
     = (if reply t == "goodbye"
        then (Ok tt, CrewAISession.world_after G jd [t] w)
        else CrewAI.loop G (CrewAI.documented jd) rest (CrewAISession.world_after G jd [t] w)))
  /\ LangGraph.is_exit (said t) = false
  /\ (forall rest st w,
        LangGraph.loop (said t :: rest) st w
        = (Raise ValidationError,
           {| LangGraph.classifier_feed := LangGraph.classifier_feed w;
              LangGraph.responder_feed := LangGraph.responder_feed w;
              LangGraph.log :=
                LangGraph.log w ++ [Prompt LangGraph.input_prompt] |})).
Proof.
  intros Hblank Hne. destruct (blank_is_not_exit _ Hblank) as [Hc Hl].
  split; [|split].
  - intros G jd rest w. apply crewai_turn. by split.
  - exact Hl.
  - intros rest st w. by apply lg_loop_line.
Qed.

Lemma blank_line_is_a_turn_witness :
  all_space "   " = true
  /\ CrewAI.loop None (CrewAI.documented sample_json_decode) ["   "; "exit"]
       (CrewAIRun.fed
          [ {| said := "   "; verdict := VNone; reply := "Yes?" |} ]
          (CrewAI.fresh [] []))
     = CrewAI.loop None (CrewAI.documented sample_json_decode) ["exit"]
         (CrewAISession.world_after None sample_json_decode
            [ {| said := "   "; verdict := VNone; reply := "Yes?" |} ]
            (CrewAI.fresh [] []))
  /\ fst (LangGraph.loop ["   "; "exit"] LangGraph.initial_state
            (LangGraph.fresh [Ok VNone] [Ok "Yes?"]))
     = Raise ValidationError.
Proof.
  split; [reflexivity|]. split.
  - exact (proj1 (blank_line_is_a_turn
                    {| said := "   "; verdict := VNone; reply := "Yes?" |}
                    eq_refl ltac:(discriminate))
             None sample_json_decode ["exit"] (CrewAI.fresh [] [])).
  - exact (f_equal fst
             (proj2 (proj2 (blank_line_is_a_turn
                              {| said := "   "; verdict := VNone;
                                 reply := "Yes?" |}
                              eq_refl ltac:(discriminate)))
                ["exit"] LangGraph.initial_state
                (LangGraph.fresh [Ok VNone] [Ok "Yes?"]))).
Defined.
